(** * pySCENIC, [pyscenic/regulome.py]: regulome derivation

    A shallow embedding of [module2regulome] and [derive_regulomes] and the
    properties of the enrichment-to-regulome pipeline.

    Numbers. The module is embedded twice. In the first embedding Python
    floats are idealised: a finite float is a real number (no rounding, no
    overflow, no underflow, a single zero), and the three special values
    NaN, +inf and -inf are kept, because the code branches on them
    ([math.isnan], [x >= t] with NaN, division by a zero standard
    deviation). The second embedding, [Binary64], takes the floats as they
    are, IEEE binary64 numbers; the properties that depend on which
    features pass the threshold or on the size of the sampled range are
    stated there. *)

From Stdlib Require Import Floats.
From Stdlib Require Import Reals Lra Lia ZArith List.
From stdpp Require Import base option list gmap strings.
Import ListNotations.

Local Open Scope R_scope.

(** ** Exceptions and fallible computations *)

Inductive exn : Type :=
  | KeyError
  | IndexError
  | ValueError
  | OverflowError
  | TypeError
  | IOError.

Inductive result (A : Type) : Type :=
  | Ok (a : A)
  | Raise (e : exn).
Arguments Ok {A} a.
Arguments Raise {A} e.

#[global] Instance result_ret : MRet result := fun A a => Ok a.
#[global] Instance result_bind : MBind result := fun A B f m =>
  match m with
  | Ok a => f a
  | Raise e => Raise e
  end.
#[global] Instance result_fmap : FMap result := fun A B f m =>
  match m with
  | Ok a => Ok (f a)
  | Raise e => Raise e
  end.

(** ** Idealised floats *)

Inductive pyfloat : Type :=
  | NaN
  | PInf
  | NInf
  | Fin (r : R).

Definition Rleb (x y : R) : bool := if Rle_dec x y then true else false.
Definition Rltb (x y : R) : bool := if Rlt_dec x y then true else false.
Definition Reqb (x y : R) : bool := if Req_dec_T x y then true else false.

(** [math.isnan] *)
Definition isnan (x : pyfloat) : bool :=
  match x with NaN => true | _ => false end.

(** [x >= y]; every comparison with NaN is false. *)
Definition fge (x y : pyfloat) : bool :=
  match x, y with
  | NaN, _ | _, NaN => false
  | PInf, _ => true
  | _, NInf => true
  | NInf, _ => false
  | _, PInf => false
  | Fin a, Fin b => Rleb b a
  end.

(** [x != y]; NaN differs from everything, itself included. *)
Definition fne (x y : pyfloat) : bool :=
  match x, y with
  | NaN, _ | _, NaN => true
  | PInf, PInf => false
  | NInf, NInf => false
  | Fin a, Fin b => negb (Reqb a b)
  | _, _ => true
  end.

Definition fneg (x : pyfloat) : pyfloat :=
  match x with
  | NaN => NaN
  | PInf => NInf
  | NInf => PInf
  | Fin a => Fin (- a)
  end.

Definition fadd (x y : pyfloat) : pyfloat :=
  match x, y with
  | NaN, _ | _, NaN => NaN
  | PInf, NInf | NInf, PInf => NaN
  | PInf, _ | _, PInf => PInf
  | NInf, _ | _, NInf => NInf
  | Fin a, Fin b => Fin (a + b)
  end.

Definition fsub (x y : pyfloat) : pyfloat := fadd x (fneg y).

(** The sign of an infinity multiplied or divided by a finite number;
    [0 * inf] is NaN. *)
Definition signed_inf (positive : bool) (a : R) : pyfloat :=
  if Reqb a 0 then NaN
  else if xorb positive (Rltb 0 a) then NInf else PInf.

Definition fmul (x y : pyfloat) : pyfloat :=
  match x, y with
  | NaN, _ | _, NaN => NaN
  | PInf, PInf | NInf, NInf => PInf
  | PInf, NInf | NInf, PInf => NInf
  | PInf, Fin a | Fin a, PInf => signed_inf true a
  | NInf, Fin a | Fin a, NInf => signed_inf false a
  | Fin a, Fin b => Fin (a * b)
  end.

(** Float division as numpy and Python floats agree on it away from a
    zero divisor; on a zero divisor this is numpy's rule ([0/0] is NaN,
    [x/0] is an infinity of the sign of [x]), which is the only place the
    code divides by a possibly zero number ([aucs.std()]). *)
Definition fdiv (x y : pyfloat) : pyfloat :=
  match x, y with
  | NaN, _ | _, NaN => NaN
  | PInf, PInf | PInf, NInf | NInf, PInf | NInf, NInf => NaN
  | PInf, Fin b => if Rltb b 0 then NInf else PInf
  | NInf, Fin b => if Rltb b 0 then PInf else NInf
  | Fin _, PInf | Fin _, NInf => Fin 0
  | Fin a, Fin b =>
      if Reqb b 0 then
        (if Reqb a 0 then NaN else if Rltb 0 a then PInf else NInf)
      else Fin (a / b)
  end.

Definition fsqrt (x : pyfloat) : pyfloat :=
  match x with
  | NaN | NInf => NaN
  | PInf => PInf
  | Fin a => if Rltb a 0 then NaN else Fin (sqrt a)
  end.

(** [math.log]: a domain error on zero and on negative numbers. *)
Definition math_log (x : pyfloat) : result pyfloat :=
  match x with
  | NaN => Ok NaN
  | PInf => Ok PInf
  | NInf => Raise ValueError
  | Fin a => if Rltb 0 a then Ok (Fin (ln a)) else Raise ValueError
  end.

(** [int(x)] on a float: truncation toward zero. *)
Definition py_int (x : pyfloat) : result Z :=
  match x with
  | NaN => Raise ValueError
  | PInf | NInf => Raise OverflowError
  | Fin a => Ok (if Rltb a 0 then (- Int_part (- a))%Z else Int_part a)
  end.

Definition of_Z (n : Z) : pyfloat := Fin (IZR n).

(** ** [module2regulome.score] *)

Definition MAX_VALUE : pyfloat := of_Z 100.

Definition score (nes motif_similarity_qval orthologuous_identity : pyfloat)
  : result pyfloat :=
  s ← (if negb (isnan motif_similarity_qval) && fne motif_similarity_qval (Fin 0)
       then l ← math_log motif_similarity_qval;
            mret (fdiv (fmul nes (fneg l)) MAX_VALUE)
       else mret nes);
  mret (if isnan orthologuous_identity then s else fmul s orthologuous_identity).

(** ** numpy pieces the module uses *)

Definition fsum (xs : list pyfloat) : pyfloat := foldr fadd (Fin 0) xs.

(** [a.mean()] of a one-dimensional array; NaN on an empty one. *)
Definition np_mean (xs : list pyfloat) : pyfloat :=
  fdiv (fsum xs) (of_Z (Z.of_nat (length xs))).

(** [a.std()]: the square root of the mean squared deviation. *)
Definition np_std (xs : list pyfloat) : pyfloat :=
  let m := np_mean xs in
  fsqrt (np_mean (map (fun x => fmul (fsub x m) (fsub x m)) xs)).

(** The columns of a rectangular matrix given by its rows. *)
Definition matrix_columns {A} (rows : list (list A)) : list (list A) :=
  match rows with
  | [] => []
  | r :: _ => map (fun j => omap (fun row : list A => row !! j) rows)
                  (seq 0 (length r))
  end.

(** [m.mean(axis=0)] and [m.std(axis=0)] of a two-dimensional array. *)
Definition np_mean_axis0 (rows : list (list pyfloat)) : list pyfloat :=
  map np_mean (matrix_columns rows).
Definition np_std_axis0 (rows : list (list pyfloat)) : list pyfloat :=
  map np_std (matrix_columns rows).

(** A value that is a zero-dimensional (scalar) or a one-dimensional array:
    what [mean(axis=0)] gives on a row and on a matrix. *)
Inductive ndarray : Type :=
  | Array0 (x : pyfloat)
  | Array1 (xs : list pyfloat).

(** [a[mask]] and [m[mask, :]] with a boolean mask: the mask has to be as
    long as the indexed axis. *)
Fixpoint mask_filter {A} (mask : list bool) (xs : list A) : list A :=
  match mask, xs with
  | b :: mask', x :: xs' =>
      if b then x :: mask_filter mask' xs' else mask_filter mask' xs'
  | _, _ => []
  end.

Definition mask_select {A} (mask : list bool) (xs : list A) : result (list A) :=
  if decide (length mask = length xs) then Ok (mask_filter mask xs)
  else Raise IndexError.

(** [np.random.randint(low, high)] without a size: one integer of
    [low, high), here chosen by the entropy [rng]; an empty range is a
    [ValueError]. *)
Definition np_random_randint (low high : Z) (rng : Z) : result Z :=
  if decide (low < high)%Z then Ok (low + rng mod (high - low))%Z
  else Raise ValueError.

(** [functools.reduce] without an initial value. *)
Definition reduce {A} (f : A -> A -> A) (xs : list A) : result A :=
  match xs with
  | [] => Raise TypeError
  | x :: xs' => Ok (foldl f x xs')
  end.

Fixpoint zip3 {A B C} (xs : list A) (ys : list B) (zs : list C)
  : list (A * B * C) :=
  match xs, ys, zs with
  | x :: xs', y :: ys', z :: zs' => (x, y, z) :: zip3 xs' ys' zs'
  | _, _, _ => []
  end.

(** ** Data model *)

(** Modelled from the spec: the [Regulome] type of [pyscenic.genesig], an
    immutable named mapping from gene to weight with the attributes the
    constructor call of [module2regulome] names. *)
Module Regulome.
Record t : Type := mk {
  name : string;
  score : pyfloat;
  nomenclature : string;
  context : gset string;
  transcription_factor : string;
  gene2weights : gmap string pyfloat
}.

(** Modelled from the spec: [module[gene]], the weight of a gene of the
    signature; a gene outside it is a [KeyError]. *)
Definition getitem (m : t) (gene : string) : result pyfloat :=
  match gene2weights m !! gene with
  | Some w => Ok w
  | None => Raise KeyError
  end.

(** Modelled from the spec: [noweights()], a copy with the same genes
    whose weights are all equal (to one). *)
Definition noweights (m : t) : t :=
  mk (name m) (score m) (nomenclature m) (context m)
     (transcription_factor m) ((fun _ => Fin 1) <$> gene2weights m).
End Regulome.

(** The table [db.load(module)] returns: feature ids label the rows, gene
    ids the columns, and the cells are rank positions. *)
Record RankTable : Type := {
  index : list string;
  columns : list string;
  values : list (list Z)
}.

Record RankingDatabase : Type := {
  db_name : string;
  total_genes : Z;
  load : Regulome.t -> result RankTable
}.

(** A row of the motif annotation table, keyed by
    (gene_name, #motif_id), with the two columns the module reads. *)
Record Annotation : Type := {
  an_key : string * string;
  an_motif_similarity_qvalue : pyfloat;
  an_orthologous_identity : pyfloat
}.

(** A row of [enriched_features]. *)
Record Enriched : Type := {
  ef_key : string * string;
  ef_NES : pyfloat;
  ef_AUC : pyfloat
}.

(** A row of [annotated_features]: the columns of both sides of the join. *)
Record Annotated : Type := {
  af_key : string * string;
  af_NES : pyfloat;
  af_AUC : pyfloat;
  af_motif_similarity_qvalue : pyfloat;
  af_orthologous_identity : pyfloat
}.

(** [pd.merge(left, right, how="inner", left_index=True, right_index=True)]:
    one row per pair of a left and a right row with equal keys, in the
    order of the left keys. *)
Definition merge_inner (left : list Enriched) (right : list Annotation)
  : list Annotated :=
  l ← left;
  r ← right;
  if decide (ef_key l = an_key r)
  then [ {| af_key := ef_key l; af_NES := ef_NES l; af_AUC := ef_AUC l;
            af_motif_similarity_qvalue := an_motif_similarity_qvalue r;
            af_orthologous_identity := an_orthologous_identity r |} ]
  else [].

(** ** [module2regulome] *)

(** [ness = (aucs - aucs.mean()) / aucs.std()] *)
Definition nes_values (aucs : list pyfloat) : list pyfloat :=
  map (fun a => fdiv (fsub a (np_mean aucs)) (np_std aucs)) aucs.

(** [enriched_features_idx = ness >= nes_threshold] *)
Definition enrichment_mask (ness : list pyfloat) (nes_threshold : pyfloat)
  : list bool :=
  map (fun n => fge n nes_threshold) ness.

(** The frame [enriched_features]: the masked features under the key
    (transcription factor, feature) with their NES and AUC. *)
Definition enriched_rows (tf : string) (features : list string)
    (ness aucs : list pyfloat) : list Enriched :=
  (fun '(f, n, a) => {| ef_key := (tf, f); ef_NES := n; ef_AUC := a |})
    <$> zip3 features ness aucs.

Definition enriched_frame (tf : string) (features : list string)
    (ness aucs : list pyfloat) (idx : list bool) : result (list Enriched) :=
  fs ← mask_select idx features;
  ns ← mask_select idx ness;
  au ← mask_select idx aucs;
  mret (enriched_rows tf fs ns au).

(** The baseline handed to the leading-edge kernel (the branch on
    [avgrcc_sample_frac]). *)
Definition leading_edge_baseline (rccs : list (list pyfloat))
    (features : list string) (avgrcc_sample_frac : option pyfloat) (rng : Z)
  : result ndarray :=
  match avgrcc_sample_frac with
  | None =>
      let avgrcc := np_mean_axis0 rccs in
      mret (Array1 (zip_with (fun a s => fadd a (fmul (Fin 2) s))
                             avgrcc (np_std_axis0 rccs)))
  | Some frac =>
      let n_features := Z.of_nat (length features) in
      high ← py_int (fmul (of_Z n_features) frac);
      sample_idx ← np_random_randint 0 high rng;
      match rccs !! Z.to_nat sample_idx with
      | None => Raise IndexError
      | Some row =>
          let avgrcc := np_mean row in
          mret (Array0 (fadd avgrcc (fmul (Fin 2) (np_std row))))
      end
  end.

(** What the loop iterates over:
    [zip(annotated_features.iterrows(), rccs[idx, :], rankings[idx, :])]. *)
Definition loop_items (annotated_features : list Annotated)
    (rccs : list (list pyfloat)) (rankings : list (list Z)) (idx : list bool)
  : result (list (Annotated * list pyfloat * list Z)) :=
  rs ← mask_select idx rccs;
  ks ← mask_select idx rankings;
  mret (zip3 annotated_features rs ks).

(** The interfaces of the two numerical kernels of [pyscenic.recovery]:
    [recovery(df, total_genes, weights, rank_threshold, auc_threshold)]
    returns the recovery curves and the AUCs, and
    [leading_edge(rcc, avg2stdrcc, ranking, genes, module)] a mapping from
    gene to weight. *)
Definition recovery_kernel : Type :=
  RankTable -> Z -> list pyfloat -> Z -> pyfloat ->
  list (list pyfloat) * list pyfloat.
Definition leading_edge_kernel : Type :=
  list pyfloat -> ndarray -> list Z -> list string -> Regulome.t ->
  gmap string pyfloat.

Section Deriver.

(** The kernels and the [union] of the [Regulome] type are collaborators
    of this module. *)
Variable recovery : recovery_kernel.
Variable leading_edge : leading_edge_kernel.
Variable union : Regulome.t -> Regulome.t -> Regulome.t.

(** One pass of the loop body: the regulome of one row. *)
Definition feature_regulome (db : RankingDatabase) (module _module : Regulome.t)
    (genes : list string) (avg2stdrcc : ndarray)
    (item : Annotated * list pyfloat * list Z) : result Regulome.t :=
  let '(row, rcc, ranking) := item in
  s ← score (af_NES row) (af_motif_similarity_qvalue row)
            (af_orthologous_identity row);
  mret (Regulome.mk (Regulome.name module) s (Regulome.nomenclature module)
          (Regulome.context module ∪ {[ db_name db ]})
          (Regulome.transcription_factor module)
          (leading_edge rcc avg2stdrcc ranking genes _module)).

Definition module2regulome (db : RankingDatabase) (module : Regulome.t)
    (motif_annotations : list Annotation)
    (rank_threshold : Z) (auc_threshold nes_threshold : pyfloat)
    (avgrcc_sample_frac : option pyfloat) (weighted_recovery : bool)
    (rng : Z) : result (option Regulome.t) :=
  df ← load db module;
  let features := index df in
  let genes := columns df in
  let rankings := values df in
  weights ← mapM (Regulome.getitem module) genes;
  let '(rccs, aucs) :=
    recovery df (total_genes db) weights rank_threshold auc_threshold in
  let ness := nes_values aucs in
  let enriched_features_idx := enrichment_mask ness nes_threshold in
  enriched_features ←
    enriched_frame (Regulome.transcription_factor module) features ness aucs
                   enriched_features_idx;
  if decide (length enriched_features = 0%nat) then mret None else
  let annotated_features := merge_inner enriched_features motif_annotations in
  if decide (length annotated_features = 0%nat) then mret None else
  avg2stdrcc ← leading_edge_baseline rccs features avgrcc_sample_frac rng;
  let _module := if weighted_recovery then module
                 else Regulome.noweights module in
  items ← loop_items annotated_features rccs rankings enriched_features_idx;
  regulomes ← mapM (feature_regulome db module _module genes avg2stdrcc) items;
  r ← reduce union regulomes;
  mret (Some r).

(** ** [derive_regulomes] *)

(** The loader of [pyscenic.utils] and the processor count of the host. *)
Variable load_motif_annotations :
  string -> pyfloat -> pyfloat -> result (list Annotation).
Variable cpu_count : nat.

Definition not_none {A} (r : option A) : bool :=
  match r with Some _ => true | None => false end.

(** [partial(filter, function=not_none)(results)] is the call
    [filter(results, function=not_none)]. The builtin [filter] takes its
    two arguments by position only: called with a keyword argument it
    raises [TypeError], whatever the arguments are. *)
Definition partial_filter_function {A} (function : option A -> bool)
    (results : list (option A)) : result (list (option A)) :=
  Raise TypeError.

(** The dask graph is evaluated task by task; the results reach the
    aggregation in the order of the tasks, and the pool size only bounds
    how many of them run at a time. A task that raises fails the run. *)
Definition compute {A} (num_workers : nat) (tasks : list (result A))
  : result (list A) :=
  mapM (fun task => task) tasks.

(** The tasks, one per pair: each is the call
    [module2regulome(db, gs, motif_annotations, rank_threshold,
    auc_threshold, nes_threshold, avgrcc_sample_frac)], seven positional
    arguments, so that [weighted_recovery] takes its default [False] in
    every task. The entropy [rng k] is what the [k]-th task draws from. *)
Definition derive_tasks (rnkdbs : list RankingDatabase)
    (modules : list Regulome.t) (motif_annotations : list Annotation)
    (rank_threshold : Z) (auc_threshold nes_threshold : pyfloat)
    (avgrcc_sample_frac : option pyfloat) (rng : nat -> Z)
  : list (result (option Regulome.t)) :=
  imap (fun k '(db, gs) =>
          module2regulome db gs motif_annotations rank_threshold
            auc_threshold nes_threshold avgrcc_sample_frac false (rng k))
       (db ← rnkdbs; gs ← modules; [(db, gs)]).

Definition derive_regulomes (rnkdbs : list RankingDatabase)
    (modules : list Regulome.t) (motif_annotations_fname : string)
    (rank_threshold : Z) (auc_threshold nes_threshold : pyfloat)
    (motif_similarity_fdr orthologuous_identity_threshold : pyfloat)
    (avgrcc_sample_frac : option pyfloat) (weighted_recovery : bool)
    (num_workers : option nat) (rng : nat -> Z)
  : result (list Regulome.t) :=
  motif_annotations ←
    load_motif_annotations motif_annotations_fname motif_similarity_fdr
                           orthologuous_identity_threshold;
  results ← compute (match num_workers with
                     | Some (S n) => S n
                     | _ => cpu_count
                     end)
                    (derive_tasks rnkdbs modules motif_annotations
                       rank_threshold auc_threshold nes_threshold
                       avgrcc_sample_frac rng);
  kept ← partial_filter_function (A := Regulome.t) not_none results;
  mret (omap (M := list) (fun r : option Regulome.t => r) kept).

End Deriver.

(** ** The specification's wording, for comparison with the code *)

(** The aggregation that drops every [None] and keeps the rest in order. *)
Definition collect_not_none {A} (results : list (option A)) : list A :=
  omap (fun r => r) results.

(** The scoring rule with one two-way split: the score is [N] when the
    q-value is undefined or zero and the identity is undefined, and
    otherwise [N * -ln(q) / 100], times the identity when it is defined. *)
Definition claimed_score (nes qval identity : pyfloat) : result pyfloat :=
  if (isnan qval || negb (fne qval (Fin 0))) && isnan identity then mret nes
  else
    l ← math_log qval;
    let s := fdiv (fmul nes (fneg l)) MAX_VALUE in
    mret (if isnan identity then s else fmul s identity).

(** The weight vector of the recovery kernel when it reflects the flag:
    the module's weights if [weighted_recovery], uniform weights if not. *)
Definition claimed_recovery_weights (module : Regulome.t) (genes : list string)
    (weighted_recovery : bool) : result (list pyfloat) :=
  mapM (Regulome.getitem (if weighted_recovery then module
                          else Regulome.noweights module)) genes.

(** The sampled baseline as a curve over the rows of the index range
    [0, floor(n_features * frac)). *)
Definition claimed_sampled_baseline (rccs : list (list pyfloat))
    (features : list string) (frac : pyfloat) : result ndarray :=
  high ← py_int (fmul (of_Z (Z.of_nat (length features))) frac);
  let sample := take (Z.to_nat high) rccs in
  mret (Array1 (zip_with (fun a s => fadd a (fmul (Fin 2) s))
                         (np_mean_axis0 sample) (np_std_axis0 sample))).

(** ** A small pair: four features, two genes *)

Module Scenario.

Definition module : Regulome.t :=
  Regulome.mk "module" (Fin 0) "HGNC" ∅ "TF"
    (<["g1" := Fin 2]> (<["g2" := Fin (1 / 2)]> ∅)).

Definition features : list string := ["f1"; "f2"; "f3"; "f4"].
Definition genes : list string := ["g1"; "g2"].
Definition rankings : list (list Z) :=
  [[1; 2]; [3; 4]; [5; 6]; [7; 8]]%Z.

Definition table : RankTable :=
  {| index := features; columns := genes; values := rankings |}.

Definition db : RankingDatabase :=
  {| db_name := "db"; total_genes := 100; load := fun _ => Ok table |}.

(** A stand-in for the recovery kernel: features [f1] and [f2] recover
    the module, [f3] and [f4] do not. *)
Definition rccs : list (list pyfloat) :=
  [[Fin 1; Fin 1]; [Fin 0; Fin 1]; [Fin 0; Fin 0]; [Fin 0; Fin 0]].
Definition aucs : list pyfloat := [Fin 1; Fin 1; Fin 0; Fin 0].
Definition recovery : recovery_kernel :=
  fun df total weights rank_threshold auc_threshold => (rccs, aucs).

(** The baseline over all the curves. *)
Definition baseline : ndarray :=
  Array1 (zip_with (fun a s => fadd a (fmul (Fin 2) s))
                   (np_mean_axis0 rccs) (np_std_axis0 rccs)).

(** A stand-in for the leading-edge kernel that hands back the weights
    of the module it is given. *)
Definition leading_edge : leading_edge_kernel :=
  fun rcc avg2stdrcc ranking gs m => Regulome.gene2weights m.

(** A stand-in for the leading-edge kernel that gives each gene its rank
    in the rank row it is called with. *)
Definition leading_edge_ranks : leading_edge_kernel :=
  fun rcc avg2stdrcc ranking gs m => list_to_map (zip gs (of_Z <$> ranking)).

(** A stand-in for [Regulome.union] that keeps its left argument. *)
Definition union (a b : Regulome.t) : Regulome.t := a.

(** Annotation tables: one that knows both enriched features, one that
    knows only the second, one that knows none. *)
Definition annotation (feature : string) : Annotation :=
  {| an_key := ("TF", feature);
     an_motif_similarity_qvalue := Fin 0;
     an_orthologous_identity := NaN |}.
Definition annotations_both : list Annotation :=
  [annotation "f1"; annotation "f2"].
Definition annotations_second : list Annotation := [annotation "f2"].
Definition annotations_other : list Annotation := [annotation "f9"].

Definition load_motif_annotations (fname : string) (fdr identity : pyfloat)
  : result (list Annotation) :=
  Ok annotations_both.

Definition enriched (feature : string) : Enriched :=
  {| ef_key := ("TF", feature); ef_NES := Fin 1; ef_AUC := Fin 1 |}.

Definition annotated (feature : string) : Annotated :=
  {| af_key := ("TF", feature); af_NES := Fin 1; af_AUC := Fin 1;
     af_motif_similarity_qvalue := Fin 0;
     af_orthologous_identity := NaN |}.

(** The regulome of one feature of this pair, given its mapping. *)
Definition regulome (g2w : gmap string pyfloat) : Regulome.t :=
  Regulome.mk "module" (Fin 1) "HGNC" (∅ ∪ {[ "db" ]}) "TF" g2w.

End Scenario.

(** * The module on IEEE binary64 numbers

    The same function with Python's floats as they are: binary64 numbers
    with their rounding, overflow and underflow. What numpy's reductions
    and the C library's logarithm return is left open (their results
    depend on the order of the additions and on the platform); the
    element-wise arithmetic and the comparisons are the IEEE operations. *)

Module Binary64.

(** [x >= y] and [x != y] on doubles; on NaN the first is false and the
    second true. *)
Definition fge (x y : float) : bool := PrimFloat.leb y x.
Definition fne (x y : float) : bool := negb (PrimFloat.eqb x y).

(** The float of a Python int, for the non-negative ints below 2^63. *)
Definition of_Z (n : Z) : float := PrimFloat.of_uint63 (Uint63.of_Z n).

(** [int(x)] on a float: truncation toward zero. *)
Definition py_int (x : float) : result Z :=
  match Prim2SF x with
  | S754_nan => Raise ValueError
  | S754_infinity _ => Raise OverflowError
  | S754_zero _ => Ok 0%Z
  | S754_finite s m e =>
      let a := if (0 <=? e)%Z then (Z.pos m * 2 ^ e)%Z
               else (Z.pos m / 2 ^ (- e))%Z in
      Ok (if s then (- a)%Z else a)
  end.

(** The library functions whose results are not fixed by IEEE 754:
    numpy's [mean] and [std] of a one-dimensional array and along axis 0
    of a two-dimensional one, and the logarithm of the C library on the
    positive numbers. *)
Record Numerics : Type := {
  np_mean : list float -> float;
  np_std : list float -> float;
  np_mean_axis0 : list (list float) -> list float;
  np_std_axis0 : list (list float) -> list float;
  libm_log : float -> float
}.

(** numpy on arrays of fewer than eight elements, where it adds from
    left to right: [mean] is the sum over the length, [std] the square
    root of the mean of the squared deviations from that mean. *)
Definition sum_left (xs : list float) : float :=
  foldl PrimFloat.add PrimFloat.zero xs.
Definition mean_left (xs : list float) : float :=
  PrimFloat.div (sum_left xs) (of_Z (Z.of_nat (length xs))).
Definition std_left (xs : list float) : float :=
  let m := mean_left xs in
  PrimFloat.sqrt
    (mean_left (map (fun x => PrimFloat.mul (PrimFloat.sub x m) (PrimFloat.sub x m)) xs)).
Definition small_arrays (log : float -> float) : Numerics :=
  {| np_mean := mean_left;
     np_std := std_left;
     np_mean_axis0 := fun rows => map mean_left (matrix_columns rows);
     np_std_axis0 := fun rows => map std_left (matrix_columns rows);
     libm_log := log |}.

(** A zero- or one-dimensional array of doubles. *)
Inductive ndarray : Type :=
  | Array0 (x : float)
  | Array1 (xs : list float).

(** Modelled from the spec: the [Regulome] type of [pyscenic.genesig],
    with [module[gene]] and [noweights()]. *)
Module Regulome.
Record t : Type := mk {
  name : string;
  score : float;
  nomenclature : string;
  context : gset string;
  transcription_factor : string;
  gene2weights : gmap string float
}.

Definition getitem (m : t) (gene : string) : result float :=
  match gene2weights m !! gene with
  | Some w => Ok w
  | None => Raise KeyError
  end.

Definition noweights (m : t) : t :=
  mk (name m) (score m) (nomenclature m) (context m)
     (transcription_factor m) ((fun _ => PrimFloat.one) <$> gene2weights m).
End Regulome.

Record RankingDatabase : Type := {
  db_name : string;
  total_genes : Z;
  load : Regulome.t -> result RankTable
}.

Record Annotation : Type := {
  an_key : string * string;
  an_motif_similarity_qvalue : float;
  an_orthologous_identity : float
}.

Record Enriched : Type := {
  ef_key : string * string;
  ef_NES : float;
  ef_AUC : float
}.

Record Annotated : Type := {
  af_key : string * string;
  af_NES : float;
  af_AUC : float;
  af_motif_similarity_qvalue : float;
  af_orthologous_identity : float
}.

(** [pd.merge(left, right, how="inner", left_index=True, right_index=True)] *)
Definition merge_inner (left : list Enriched) (right : list Annotation)
  : list Annotated :=
  l ← left;
  r ← right;
  if decide (ef_key l = an_key r)
  then [ {| af_key := ef_key l; af_NES := ef_NES l; af_AUC := ef_AUC l;
            af_motif_similarity_qvalue := an_motif_similarity_qvalue r;
            af_orthologous_identity := an_orthologous_identity r |} ]
  else [].

Definition enriched_rows (tf : string) (features : list string)
    (ness aucs : list float) : list Enriched :=
  (fun '(f, n, a) => {| ef_key := (tf, f); ef_NES := n; ef_AUC := a |})
    <$> zip3 features ness aucs.

Definition enriched_frame (tf : string) (features : list string)
    (ness aucs : list float) (idx : list bool) : result (list Enriched) :=
  fs ← mask_select idx features;
  ns ← mask_select idx ness;
  au ← mask_select idx aucs;
  mret (enriched_rows tf fs ns au).

Definition loop_items (annotated_features : list Annotated)
    (rccs : list (list float)) (rankings : list (list Z)) (idx : list bool)
  : result (list (Annotated * list float * list Z)) :=
  rs ← mask_select idx rccs;
  ks ← mask_select idx rankings;
  mret (zip3 annotated_features rs ks).

Definition recovery_kernel : Type :=
  RankTable -> Z -> list float -> Z -> float ->
  list (list float) * list float.
Definition leading_edge_kernel : Type :=
  list float -> ndarray -> list Z -> list string -> Regulome.t ->
  gmap string float.

Section Deriver.

Variable lib : Numerics.
Variable recovery : recovery_kernel.
Variable leading_edge : leading_edge_kernel.
Variable union : Regulome.t -> Regulome.t -> Regulome.t.

(** [math.log]: NaN for NaN, a domain error on zero and on negative
    numbers, the C library's logarithm otherwise. *)
Definition math_log (x : float) : result float :=
  if PrimFloat.is_nan x then Ok PrimFloat.nan
  else if PrimFloat.leb x PrimFloat.zero then Raise ValueError
  else Ok (libm_log lib x).

(** [module2regulome.score] *)
Definition MAX_VALUE : float := of_Z 100.

Definition score (nes motif_similarity_qval orthologuous_identity : float)
  : result float :=
  s ← (if negb (PrimFloat.is_nan motif_similarity_qval)
          && fne motif_similarity_qval PrimFloat.zero
       then l ← math_log motif_similarity_qval;
            mret (PrimFloat.div (PrimFloat.mul nes (PrimFloat.opp l)) MAX_VALUE)
       else mret nes);
  mret (if PrimFloat.is_nan orthologuous_identity then s
        else PrimFloat.mul s orthologuous_identity).

(** [ness = (aucs - aucs.mean()) / aucs.std()] *)
Definition nes_values (aucs : list float) : list float :=
  map (fun a => PrimFloat.div (PrimFloat.sub a (np_mean lib aucs))
                              (np_std lib aucs)) aucs.

(** [enriched_features_idx = ness >= nes_threshold] *)
Definition enrichment_mask (ness : list float) (nes_threshold : float)
  : list bool :=
  map (fun n => fge n nes_threshold) ness.

(** The baseline handed to the leading-edge kernel. *)
Definition leading_edge_baseline (rccs : list (list float))
    (features : list string) (avgrcc_sample_frac : option float) (rng : Z)
  : result ndarray :=
  match avgrcc_sample_frac with
  | None =>
      let avgrcc := np_mean_axis0 lib rccs in
      mret (Array1 (zip_with (fun a s => PrimFloat.add a (PrimFloat.mul PrimFloat.two s))
                             avgrcc (np_std_axis0 lib rccs)))
  | Some frac =>
      let n_features := Z.of_nat (length features) in
      high ← py_int (PrimFloat.mul (of_Z n_features) frac);
      sample_idx ← np_random_randint 0 high rng;
      match rccs !! Z.to_nat sample_idx with
      | None => Raise IndexError
      | Some row =>
          let avgrcc := np_mean lib row in
          mret (Array0 (PrimFloat.add avgrcc
                          (PrimFloat.mul PrimFloat.two (np_std lib row))))
      end
  end.

Definition feature_regulome (db : RankingDatabase) (module _module : Regulome.t)
    (genes : list string) (avg2stdrcc : ndarray)
    (item : Annotated * list float * list Z) : result Regulome.t :=
  let '(row, rcc, ranking) := item in
  s ← score (af_NES row) (af_motif_similarity_qvalue row)
            (af_orthologous_identity row);
  mret (Regulome.mk (Regulome.name module) s (Regulome.nomenclature module)
          (Regulome.context module ∪ {[ db_name db ]})
          (Regulome.transcription_factor module)
          (leading_edge rcc avg2stdrcc ranking genes _module)).

Definition module2regulome (db : RankingDatabase) (module : Regulome.t)
    (motif_annotations : list Annotation)
    (rank_threshold : Z) (auc_threshold nes_threshold : float)
    (avgrcc_sample_frac : option float) (weighted_recovery : bool)
    (rng : Z) : result (option Regulome.t) :=
  df ← load db module;
  let features := index df in
  let genes := columns df in
  let rankings := values df in
  weights ← mapM (Regulome.getitem module) genes;
  let '(rccs, aucs) :=
    recovery df (total_genes db) weights rank_threshold auc_threshold in
  let ness := nes_values aucs in
  let enriched_features_idx := enrichment_mask ness nes_threshold in
  enriched_features ←
    enriched_frame (Regulome.transcription_factor module) features ness aucs
                   enriched_features_idx;
  if decide (length enriched_features = 0%nat) then mret None else
  let annotated_features := merge_inner enriched_features motif_annotations in
  if decide (length annotated_features = 0%nat) then mret None else
  avg2stdrcc ← leading_edge_baseline rccs features avgrcc_sample_frac rng;
  let _module := if weighted_recovery then module
                 else Regulome.noweights module in
  items ← loop_items annotated_features rccs rankings enriched_features_idx;
  regulomes ← mapM (feature_regulome db module _module genes avg2stdrcc) items;
  r ← reduce union regulomes;
  mret (Some r).

End Deriver.

(** ** Small pairs on doubles *)

Module Scenario.

Definition lib : Numerics := small_arrays (fun x => x).

Definition module : Regulome.t :=
  Regulome.mk "module" PrimFloat.zero "HGNC" ∅ "TF"
    (<["g1" := 2%float]> (<["g2" := 0.5%float]> ∅)).

Definition genes : list string := ["g1"; "g2"].

(** Three features, of which the first recovers the module. *)
Definition table3 : RankTable :=
  {| index := ["f1"; "f2"; "f3"]; columns := genes;
     values := [[1; 2]; [3; 4]; [5; 6]]%Z |}.
Definition db3 : RankingDatabase :=
  {| db_name := "db"; total_genes := 100; load := fun _ => Ok table3 |}.
Definition rccs3 : list (list float) :=
  [[1; 1]; [0; 1]; [0; 0]]%float.
Definition aucs3 : list float := [1; 0; 0]%float.
Definition recovery3 : recovery_kernel :=
  fun df total weights rank_threshold auc_threshold => (rccs3, aucs3).

(** Two features whose AUCs differ by less than the square root of the
    smallest double. *)
Definition table2 : RankTable :=
  {| index := ["f1"; "f2"]; columns := genes;
     values := [[1; 2]; [3; 4]]%Z |}.
Definition db2 : RankingDatabase :=
  {| db_name := "db"; total_genes := 100; load := fun _ => Ok table2 |}.
Definition rccs2 : list (list float) := [[1; 1]; [0; 1]]%float.
Definition aucs2 : list float := [0x1p-664; 0]%float.
Definition recovery2 : recovery_kernel :=
  fun df total weights rank_threshold auc_threshold => (rccs2, aucs2).

Definition leading_edge : leading_edge_kernel :=
  fun rcc avg2stdrcc ranking gs m => Regulome.gene2weights m.
Definition union (a b : Regulome.t) : Regulome.t := a.

(** The default [auc_threshold], 0.05, as a double. *)
Definition auc_threshold : float := 0x1.999999999999ap-5%float.

Definition annotations : list Annotation :=
  [ {| an_key := ("TF", "f1"); an_motif_similarity_qvalue := PrimFloat.zero;
       an_orthologous_identity := PrimFloat.nan |} ].

(** One third as a double: 6004799503160661 / 2^54. *)
Definition third : float := 0x1.5555555555555p-2%float.

Definition regulome (nes : float) : Regulome.t :=
  Regulome.mk "module" nes "HGNC" (∅ ∪ {[ "db" ]}) "TF"
    (Regulome.gene2weights (Regulome.noweights module)).

End Scenario.

End Binary64.

(** * Properties *)

(** ** Comparisons of reals *)

Lemma Rleb_true (x y : R) : x <= y -> Rleb x y = true.
Proof. intros H. unfold Rleb. destruct (Rle_dec x y); [reflexivity | contradiction]. Qed.

Lemma Rleb_false (x y : R) : y < x -> Rleb x y = false.
Proof. intros H. unfold Rleb. destruct (Rle_dec x y); [lra | reflexivity]. Qed.

Lemma Rltb_true (x y : R) : x < y -> Rltb x y = true.
Proof. intros H. unfold Rltb. destruct (Rlt_dec x y); [reflexivity | contradiction]. Qed.

Lemma Rltb_false (x y : R) : y <= x -> Rltb x y = false.
Proof. intros H. unfold Rltb. destruct (Rlt_dec x y); [lra | reflexivity]. Qed.

Lemma Reqb_true (x y : R) : x = y -> Reqb x y = true.
Proof. intros H. unfold Reqb. destruct (Req_dec_T x y); [reflexivity | contradiction]. Qed.

Lemma Reqb_false (x y : R) : x <> y -> Reqb x y = false.
Proof. intros H. unfold Reqb. destruct (Req_dec_T x y); [contradiction | reflexivity]. Qed.

Lemma Rleb_spec (x y : R) : Rleb x y = true <-> x <= y.
Proof.
  unfold Rleb. destruct (Rle_dec x y); split; intros; try easy.
Qed.

(** Decide every comparison of real constants in the goal. *)
Ltac real_tests :=
  repeat match goal with
  | |- context [Reqb ?a ?b] =>
      first [ rewrite (Reqb_true a b) by lra | rewrite (Reqb_false a b) by lra ]
  | |- context [Rltb ?a ?b] =>
      first [ rewrite (Rltb_true a b) by lra | rewrite (Rltb_false a b) by lra ]
  | |- context [Rleb ?a ?b] =>
      first [ rewrite (Rleb_true a b) by lra | rewrite (Rleb_false a b) by lra ]
  end.

Ltac of_nat_eval :=
  repeat match goal with
  | |- context [Z.of_nat ?n] =>
      let v := eval vm_compute in (Z.of_nat n) in change (Z.of_nat n) with v
  end.

(** Evaluate float operations on constants. *)
Ltac float_eval := repeat (progress (cbn; of_nat_eval; real_tests)).

(** ** The scoring rule (C5) *)

Lemma score_no_penalty (N q oi : pyfloat) :
  q = NaN \/ q = Fin 0 ->
  score N q oi = Ok (if isnan oi then N else fmul N oi).
Proof.
  intros [-> | ->]; unfold score; cbn; [reflexivity |].
  rewrite Reqb_true by reflexivity. reflexivity.
Qed.

Lemma score_damped (N oi : pyfloat) (r : R) :
  0 < r ->
  score N (Fin r) oi =
  Ok (let s := fdiv (fmul N (Fin (- ln r))) (Fin 100) in
      if isnan oi then s else fmul s oi).
Proof.
  intros Hr. unfold score, math_log, MAX_VALUE, of_Z; cbn.
  rewrite Reqb_false by lra. cbn.
  rewrite Rltb_true by lra. reflexivity.
Qed.

(** C5, as stated, fails: with a zero q-value and a defined identity the
    code gives [N * identity], while the claim's second case applies
    [N * -ln(q) / 100 * identity], on which the logarithm has no value. *)
Lemma score_claim_fails_at_zero_qvalue :
  score (Fin 1) (Fin 0) (Fin (1 / 2)) = Ok (Fin (1 * (1 / 2))) /\
  claimed_score (Fin 1) (Fin 0) (Fin (1 / 2)) = Raise ValueError /\
  score (Fin 1) (Fin 0) (Fin (1 / 2)) <> claimed_score (Fin 1) (Fin 0) (Fin (1 / 2)).
Proof.
  assert (Hs : score (Fin 1) (Fin 0) (Fin (1 / 2)) = Ok (Fin (1 * (1 / 2)))).
  { rewrite score_no_penalty by (right; reflexivity). reflexivity. }
  assert (Hc : claimed_score (Fin 1) (Fin 0) (Fin (1 / 2)) = Raise ValueError).
  { unfold claimed_score, math_log; cbn.
    rewrite Reqb_true by reflexivity. cbn.
    rewrite Rltb_false by lra. reflexivity. }
  repeat split; [exact Hs | exact Hc |].
  rewrite Hs, Hc. discriminate.
Qed.

(** C5, amended: the q-value alone decides between [N] (undefined or zero)
    and [N * -ln(q) / 100] (a positive q-value); the result is multiplied
    by the orthologous identity exactly when the identity is defined. With
    [q = e^-1] and identity [0.5] the score is [N * 0.01 * 0.5]. *)
Theorem score_rule (N : pyfloat) :
  (forall q, q = NaN \/ q = Fin 0 -> score N q NaN = Ok N) /\
  (forall q oi, q = NaN \/ q = Fin 0 -> oi <> NaN ->
     score N q oi = Ok (fmul N oi)) /\
  (forall r, 0 < r ->
     score N (Fin r) NaN = Ok (fdiv (fmul N (Fin (- ln r))) (Fin 100))) /\
  (forall r oi, 0 < r -> oi <> NaN ->
     score N (Fin r) oi =
     Ok (fmul (fdiv (fmul N (Fin (- ln r))) (Fin 100)) oi)) /\
  score N (Fin (exp (- 1))) (Fin 0.5) = Ok (fmul (fmul N (Fin 0.01)) (Fin 0.5)).
Proof.
  repeat split.
  - intros q Hq. rewrite score_no_penalty by exact Hq. reflexivity.
  - intros q oi Hq Hoi. rewrite score_no_penalty by exact Hq.
    destruct oi; [contradiction | reflexivity ..].
  - intros r Hr. rewrite score_damped by exact Hr. reflexivity.
  - intros r oi Hr Hoi. rewrite score_damped by exact Hr.
    destruct oi; [contradiction | reflexivity ..].
  - rewrite score_damped by apply exp_pos.
    rewrite ln_exp.
    destruct N as [| | | n]; repeat (progress (unfold signed_inf; float_eval));
      try reflexivity.
    do 2 f_equal. lra.
Qed.

Lemma score_rule_witness :
  score (Fin 3) (Fin 0) NaN = Ok (Fin 3) /\
  score (Fin 3) (Fin 0) (Fin 0.5) = Ok (fmul (Fin 3) (Fin 0.5)) /\
  score (Fin 3) (Fin 1) NaN = Ok (fdiv (fmul (Fin 3) (Fin (- ln 1))) (Fin 100)) /\
  score (Fin 3) (Fin 1) (Fin 0.5) =
    Ok (fmul (fdiv (fmul (Fin 3) (Fin (- ln 1))) (Fin 100)) (Fin 0.5)) /\
  score (Fin 3) (Fin (exp (- 1))) (Fin 0.5)
    = Ok (fmul (fmul (Fin 3) (Fin 0.01)) (Fin 0.5)).
Proof.
  destruct (score_rule (Fin 3)) as (H1 & H2 & H3 & H4 & H5).
  split; [apply H1; right; reflexivity |].
  split; [apply H2; [right; reflexivity | discriminate] |].
  split; [apply H3; lra |].
  split; [apply H4; [lra | discriminate] |].
  exact H5.
Defined.

(** ** Fallible computations *)

Lemma bind_Ok {A B} (m : result A) (f : A -> result B) (b : B) :
  m ≫= f = Ok b <-> exists a, m = Ok a /\ f a = Ok b.
Proof.
  destruct m as [a | e]; cbn; split.
  - intros H. exists a. split; [reflexivity | exact H].
  - intros (a' & Ha & H). injection Ha as ->. exact H.
  - discriminate.
  - intros (a' & Ha & _). discriminate.
Qed.

Lemma bind_Raise {A B} (m : result A) (f : A -> result B) (e : exn) :
  m = Raise e -> m ≫= f = Raise e.
Proof. intros ->. reflexivity. Qed.

Lemma mapM_Ok_Forall2 {A B} (f : A -> result B) (l : list A) (k : list B) :
  mapM f l = Ok k <-> Forall2 (fun x y => f x = Ok y) l k.
Proof.
  revert k. induction l as [| x l IH]; intros k; cbn.
  - split.
    + intros [= <-]. constructor.
    + intros H. inversion H. reflexivity.
  - split.
    + intros H. apply bind_Ok in H as (y & Hy & H).
      apply bind_Ok in H as (k' & Hk' & H). injection H as <-.
      constructor; [exact Hy | apply IH, Hk'].
    + intros H. inversion H as [| x' y l' k' Hy Hk]; subst.
      apply bind_Ok. exists y. split; [exact Hy |].
      apply bind_Ok. exists k'. split; [apply IH, Hk | reflexivity].
Qed.

Lemma mapM_Ok_length {A B} (f : A -> result B) (l : list A) (k : list B) :
  mapM f l = Ok k -> length k = length l.
Proof.
  intros H. apply mapM_Ok_Forall2 in H. symmetry. eapply Forall2_length, H.
Qed.

(** ** Boolean masks *)

Lemma mask_select_Ok {A} (mask : list bool) (xs ys : list A) :
  mask_select mask xs = Ok ys <->
  length mask = length xs /\ ys = mask_filter mask xs.
Proof.
  unfold mask_select. destruct (decide (length mask = length xs)) as [H | H].
  - split; [intros [= <-]; auto | intros [_ ->]; reflexivity].
  - split; [discriminate | intros [H' _]; contradiction].
Qed.

Lemma mask_select_same_length {A} (mask : list bool) (xs : list A) :
  length mask = length xs -> mask_select mask xs = Ok (mask_filter mask xs).
Proof. intros H. apply mask_select_Ok. auto. Qed.

Lemma mask_filter_all_false {A} (mask : list bool) (xs : list A) :
  Forall (fun b => b = false) mask -> mask_filter mask xs = [].
Proof.
  intros H. revert xs. induction H as [| b mask -> _ IH]; intros [| x xs]; cbn; auto.
Qed.

Lemma elem_of_zip3_mask_filter {A B C} (mask : list bool)
    (xs : list A) (ys : list B) (zs : list C) (x : A) (y : B) (z : C) :
  length xs = length ys -> length ys = length zs ->
  (x, y, z) ∈ zip3 (mask_filter mask xs) (mask_filter mask ys) (mask_filter mask zs) <->
  exists i : nat, mask !! i = Some true /\
    xs !! i = Some x /\ ys !! i = Some y /\ zs !! i = Some z.
Proof.
  revert xs ys zs. induction mask as [| b mask IH]; intros xs ys zs Hxy Hyz.
  - cbn. split; [intros H; inversion H | intros (i & H & _); discriminate].
  - destruct xs as [| x' xs], ys as [| y' ys], zs as [| z' zs]; try discriminate.
    + cbn. split; [intros H; inversion H | intros (i & _ & H & _); discriminate].
    + injection Hxy as Hxy. injection Hyz as Hyz.
      cbn [mask_filter]. destruct b.
      * cbn [zip3]. rewrite elem_of_cons, (IH _ _ _ Hxy Hyz). split.
        -- intros [[= -> -> ->] | (i & Hm & H)]; [exists 0%nat; auto | exists (S i); auto].
        -- intros ([| i] & Hm & Hx & Hy & Hz); cbn in *;
             [left; congruence | right; eauto 6].
      * rewrite (IH _ _ _ Hxy Hyz). split.
        -- intros (i & Hm & H). exists (S i); auto.
        -- intros ([| i] & Hm & H); cbn in *; [discriminate | eauto].
Qed.

(** ** Lengths of the masks *)

Lemma length_nes_values (aucs : list pyfloat) :
  length (nes_values aucs) = length aucs.
Proof. unfold nes_values. apply length_map. Qed.

Lemma length_enrichment_mask (ness : list pyfloat) (thr : pyfloat) :
  length (enrichment_mask ness thr) = length ness.
Proof. unfold enrichment_mask. apply length_map. Qed.

(** ** The stages of [module2regulome] *)

Lemma bind_Ok_l {A B} (a : A) (f : A -> result B) : Ok a ≫= f = f a.
Proof. reflexivity. Qed.

Lemma enriched_frame_Ok (tf : string) (features : list string)
    (aucs : list pyfloat) (thr : pyfloat) :
  length aucs = length features ->
  let ness := nes_values aucs in
  let idx := enrichment_mask ness thr in
  enriched_frame tf features ness aucs idx =
  Ok (enriched_rows tf (mask_filter idx features) (mask_filter idx ness)
                    (mask_filter idx aucs)).
Proof.
  intros Hlen ness idx. unfold enriched_frame.
  assert (Hidx : length idx = length aucs).
  { unfold idx, ness. rewrite length_enrichment_mask. apply length_nes_values. }
  rewrite !mask_select_same_length; [reflexivity | ..].
  - congruence.
  - unfold idx. apply length_enrichment_mask.
  - exact Hidx.
Qed.

(** ** Rows of the frames *)

Lemma elem_of_zip3_l {A B C} (xs : list A) (ys : list B) (zs : list C)
    (x : A) (y : B) (z : C) :
  (x, y, z) ∈ zip3 xs ys zs ->
  exists k : nat, xs !! k = Some x /\ ys !! k = Some y /\ zs !! k = Some z.
Proof.
  revert ys zs. induction xs as [| x' xs IH]; intros [| y' ys] [| z' zs] H;
    try (inversion H; fail).
  cbn in H. apply elem_of_cons in H as [[= -> -> ->] | H].
  - exists 0%nat. auto.
  - destruct (IH _ _ H) as (k & ?). exists (S k). auto.
Qed.

Lemma mask_filter_lookup_pair {B C} (mask : list bool) (ys : list B)
    (zs : list C) (k : nat) (y : B) (z : C) :
  length ys = length zs ->
  mask_filter mask ys !! k = Some y -> mask_filter mask zs !! k = Some z ->
  exists i : nat, mask !! i = Some true /\ ys !! i = Some y /\ zs !! i = Some z.
Proof.
  revert ys zs k. induction mask as [| b mask IH]; intros ys zs k Hlen Hy Hz.
  - discriminate.
  - destruct ys as [| y' ys], zs as [| z' zs]; try discriminate.
    injection Hlen as Hlen. cbn [mask_filter] in Hy, Hz. destruct b.
    + destruct k as [| k]; cbn in Hy, Hz.
      * exists 0%nat. cbn. repeat split; congruence.
      * destruct (IH _ _ _ Hlen Hy Hz) as (i & ?). exists (S i). auto.
    + destruct (IH _ _ _ Hlen Hy Hz) as (i & ?). exists (S i). auto.
Qed.

Section DeriverProperties.

Variable recovery : recovery_kernel.
Variable leading_edge : leading_edge_kernel.
Variable union : Regulome.t -> Regulome.t -> Regulome.t.

(** The part of [module2regulome] after the enrichment filter. *)
Lemma module2regulome_stages (db : RankingDatabase) (module : Regulome.t)
    (ann : list Annotation) (rt : Z) (at_ thr : pyfloat)
    (frac : option pyfloat) (wr : bool) (rng : Z)
    (df : RankTable) (weights : list pyfloat)
    (rccs : list (list pyfloat)) (aucs : list pyfloat) (ef : list Enriched) :
  load db module = Ok df ->
  mapM (Regulome.getitem module) (columns df) = Ok weights ->
  recovery df (total_genes db) weights rt at_ = (rccs, aucs) ->
  enriched_frame (Regulome.transcription_factor module) (index df)
    (nes_values aucs) aucs (enrichment_mask (nes_values aucs) thr) = Ok ef ->
  module2regulome recovery leading_edge union db module ann rt at_ thr frac wr rng =
  if decide (length ef = 0%nat) then Ok None else
  if decide (length (merge_inner ef ann) = 0%nat) then Ok None else
  avg2stdrcc ← leading_edge_baseline rccs (index df) frac rng;
  items ← loop_items (merge_inner ef ann) rccs (values df)
                     (enrichment_mask (nes_values aucs) thr);
  regulomes ← mapM (feature_regulome leading_edge db module
                      (if wr then module else Regulome.noweights module)
                      (columns df) avg2stdrcc) items;
  r ← reduce union regulomes;
  mret (Some r).
Proof.
  intros Hload Hw Hrec Hef. unfold module2regulome.
  rewrite Hload, bind_Ok_l, Hw, bind_Ok_l, Hrec, Hef, bind_Ok_l.
  reflexivity.
Qed.


Lemma module2regulome_Some_inv (db : RankingDatabase) (module : Regulome.t)
    (ann : list Annotation) (rt : Z) (at_ thr : pyfloat)
    (frac : option pyfloat) (wr : bool) (rng : Z) (r : Regulome.t) :
  module2regulome recovery leading_edge union db module ann rt at_ thr frac wr rng
    = Ok (Some r) ->
  exists df weights rccs aucs ef avg2stdrcc items regulomes,
    load db module = Ok df /\
    mapM (Regulome.getitem module) (columns df) = Ok weights /\
    recovery df (total_genes db) weights rt at_ = (rccs, aucs) /\
    enriched_frame (Regulome.transcription_factor module) (index df)
      (nes_values aucs) aucs (enrichment_mask (nes_values aucs) thr) = Ok ef /\
    merge_inner ef ann <> [] /\
    leading_edge_baseline rccs (index df) frac rng = Ok avg2stdrcc /\
    loop_items (merge_inner ef ann) rccs (values df)
      (enrichment_mask (nes_values aucs) thr) = Ok items /\
    mapM (feature_regulome leading_edge db module
            (if wr then module else Regulome.noweights module)
            (columns df) avg2stdrcc) items = Ok regulomes /\
    reduce union regulomes = Ok r.
Proof.
  unfold module2regulome. intros H.
  apply bind_Ok in H as (df & Hload & H).
  apply bind_Ok in H as (weights & Hw & H).
  destruct (recovery df (total_genes db) weights rt at_) as [rccs aucs] eqn:Hrec.
  apply bind_Ok in H as (ef & Hef & H).
  destruct (decide (length ef = 0%nat)) as [? | _]; [discriminate |].
  destruct (decide (length (merge_inner ef ann) = 0%nat)) as [? | Hann];
    [discriminate |].
  apply bind_Ok in H as (base & Hbase & H).
  apply bind_Ok in H as (items & Hitems & H).
  apply bind_Ok in H as (regs & Hregs & H).
  apply bind_Ok in H as (r' & Hr & H).
  injection H as ->.
  exists df, weights, rccs, aucs, ef, base, items, regs.
  repeat split; try assumption.
  intros Hnil. apply Hann. rewrite Hnil. reflexivity.
Qed.



Lemma feature_regulome_Ok (db : RankingDatabase) (module _module : Regulome.t)
    (genes : list string) (avg2stdrcc : ndarray) (row : Annotated)
    (rcc : list pyfloat) (ranking : list Z) (reg : Regulome.t) :
  feature_regulome leading_edge db module _module genes avg2stdrcc
    (row, rcc, ranking) = Ok reg <->
  exists s,
    score (af_NES row) (af_motif_similarity_qvalue row)
          (af_orthologous_identity row) = Ok s /\
    reg = Regulome.mk (Regulome.name module) s (Regulome.nomenclature module)
            (Regulome.context module ∪ {[ db_name db ]})
            (Regulome.transcription_factor module)
            (leading_edge rcc avg2stdrcc ranking genes _module).
Proof.
  unfold feature_regulome. rewrite bind_Ok. split.
  - intros (s & Hs & [= <-]). eauto.
  - intros (s & Hs & ->). eauto.
Qed.

End DeriverProperties.

(** ** The small pair, evaluated *)

Lemma scenario_mean : np_mean Scenario.aucs = Fin (1 / 2).
Proof.
  unfold np_mean, Scenario.aucs, of_Z. float_eval. f_equal. lra.
Qed.

Lemma scenario_std : np_std Scenario.aucs = Fin (1 / 2).
Proof.
  unfold np_std. rewrite scenario_mean.
  unfold np_mean, Scenario.aucs, of_Z. float_eval.
  f_equal. apply sqrt_lem_1; lra.
Qed.

Lemma scenario_ness :
  nes_values Scenario.aucs = [Fin 1; Fin 1; Fin (- 1); Fin (- 1)].
Proof.
  unfold nes_values. rewrite scenario_mean, scenario_std.
  unfold Scenario.aucs. float_eval. repeat f_equal; lra.
Qed.

Lemma scenario_mask :
  enrichment_mask (nes_values Scenario.aucs) (Fin 1) = [true; true; false; false].
Proof. rewrite scenario_ness. unfold enrichment_mask. float_eval. reflexivity. Qed.

Lemma scenario_weights :
  mapM (Regulome.getitem Scenario.module) Scenario.genes
    = Ok [Fin 2; Fin (1 / 2)].
Proof. reflexivity. Qed.

Lemma scenario_uniform_weights :
  mapM (Regulome.getitem (Regulome.noweights Scenario.module)) Scenario.genes
    = Ok [Fin 1; Fin 1].
Proof. reflexivity. Qed.

Lemma scenario_enriched_frame :
  enriched_frame "TF" Scenario.features (nes_values Scenario.aucs) Scenario.aucs
    (enrichment_mask (nes_values Scenario.aucs) (Fin 1))
  = Ok [Scenario.enriched "f1"; Scenario.enriched "f2"].
Proof. rewrite scenario_mask, scenario_ness. reflexivity. Qed.

Lemma scenario_stages
    (leading_edge : leading_edge_kernel)
    (union : Regulome.t -> Regulome.t -> Regulome.t)
    (ann : list Annotation) (rt : Z) (at_ : pyfloat)
    (frac : option pyfloat) (wr : bool) (rng : Z) :
  let ef := [Scenario.enriched "f1"; Scenario.enriched "f2"] in
  module2regulome Scenario.recovery leading_edge union Scenario.db
    Scenario.module ann rt at_ (Fin 1) frac wr rng =
  if decide (length (merge_inner ef ann) = 0%nat) then Ok None else
  avg2stdrcc ← leading_edge_baseline Scenario.rccs Scenario.features frac rng;
  regulomes ← mapM (feature_regulome leading_edge Scenario.db Scenario.module
                      (if wr then Scenario.module
                       else Regulome.noweights Scenario.module)
                      Scenario.genes avg2stdrcc)
                   (zip3 (merge_inner ef ann)
                         [[Fin 1; Fin 1]; [Fin 0; Fin 1]] [[1; 2]; [3; 4]]%Z);
  r ← reduce union regulomes;
  mret (Some r).
Proof.
  intros ef.
  rewrite (module2regulome_stages Scenario.recovery leading_edge union
             Scenario.db Scenario.module ann rt at_ (Fin 1) frac wr rng
             Scenario.table [Fin 2; Fin (1 / 2)] Scenario.rccs Scenario.aucs ef
             eq_refl scenario_weights eq_refl scenario_enriched_frame).
  rewrite scenario_mask. reflexivity.
Qed.

Lemma scenario_join_both :
  merge_inner [Scenario.enriched "f1"; Scenario.enriched "f2"]
    Scenario.annotations_both
  = [Scenario.annotated "f1"; Scenario.annotated "f2"].
Proof. reflexivity. Qed.

Lemma scenario_join_second :
  merge_inner [Scenario.enriched "f1"; Scenario.enriched "f2"]
    Scenario.annotations_second
  = [Scenario.annotated "f2"].
Proof. reflexivity. Qed.

Lemma scenario_join_other :
  merge_inner [Scenario.enriched "f1"; Scenario.enriched "f2"]
    Scenario.annotations_other
  = [].
Proof. reflexivity. Qed.

Lemma scenario_score : score (Fin 1) (Fin 0) NaN = Ok (Fin 1).
Proof. apply score_no_penalty. right. reflexivity. Qed.

Lemma scenario_feature_regulome
    (leading_edge : leading_edge_kernel)
    (_module : Regulome.t) (avg2stdrcc : ndarray) (f : string)
    (rcc : list pyfloat) (ranking : list Z) :
  feature_regulome leading_edge Scenario.db Scenario.module _module
    Scenario.genes avg2stdrcc (Scenario.annotated f, rcc, ranking)
  = Ok (Scenario.regulome
          (leading_edge rcc avg2stdrcc ranking Scenario.genes _module)).
Proof.
  unfold feature_regulome. cbn [Scenario.annotated af_NES
    af_motif_similarity_qvalue af_orthologous_identity].
  rewrite scenario_score. reflexivity.
Qed.

(** The run in which only the second enriched feature is annotated. *)
Lemma scenario_run_second
    (leading_edge : leading_edge_kernel)
    (union : Regulome.t -> Regulome.t -> Regulome.t)
    (rt : Z) (at_ : pyfloat) (wr : bool) (rng : Z) :
  module2regulome Scenario.recovery leading_edge union Scenario.db
    Scenario.module Scenario.annotations_second rt at_ (Fin 1) None wr rng
  = Ok (Some (Scenario.regulome
                (leading_edge [Fin 1; Fin 1] Scenario.baseline [1; 2]%Z
                   Scenario.genes
                   (if wr then Scenario.module
                    else Regulome.noweights Scenario.module)))).
Proof.
  rewrite scenario_stages. cbv zeta. rewrite scenario_join_second.
  rewrite decide_False by discriminate.
  change (leading_edge_baseline Scenario.rccs Scenario.features None rng)
    with (Ok Scenario.baseline).
  rewrite bind_Ok_l.
  cbn [zip3 mapM]. rewrite scenario_feature_regulome. reflexivity.
Qed.

(** The runs in which both enriched features are annotated. *)
Lemma scenario_run_both
    (leading_edge : leading_edge_kernel)
    (union : Regulome.t -> Regulome.t -> Regulome.t)
    (rt : Z) (at_ : pyfloat) (frac : option pyfloat) (wr : bool) (rng : Z)
    (avg2stdrcc : ndarray) :
  leading_edge_baseline Scenario.rccs Scenario.features frac rng
    = Ok avg2stdrcc ->
  let _module := if wr then Scenario.module
                 else Regulome.noweights Scenario.module in
  module2regulome Scenario.recovery leading_edge union Scenario.db
    Scenario.module Scenario.annotations_both rt at_ (Fin 1) frac wr rng
  = Ok (Some (union
          (Scenario.regulome
             (leading_edge [Fin 1; Fin 1] avg2stdrcc [1; 2]%Z Scenario.genes _module))
          (Scenario.regulome
             (leading_edge [Fin 0; Fin 1] avg2stdrcc [3; 4]%Z Scenario.genes _module)))).
Proof.
  intros Hbase _module.
  rewrite scenario_stages. cbv zeta. rewrite scenario_join_both.
  rewrite decide_False by discriminate.
  rewrite Hbase, bind_Ok_l.
  cbn [zip3 mapM]. rewrite !scenario_feature_regulome. reflexivity.
Qed.

(** ** The sampled baseline *)

Lemma Int_part_IZR_const (x : R) (z : Z) : x = IZR z -> Int_part x = z.
Proof. intros ->. symmetry. apply Int_part_spec. lra. Qed.

(** In sampling mode the baseline is the scalar [mean + 2 * std] of the
    entries of one row, the one at the index drawn. *)
Lemma sampled_baseline_single_row (rccs : list (list pyfloat))
    (features : list string) (frac : pyfloat) (rng : Z) (b : ndarray) :
  leading_edge_baseline rccs features (Some frac) rng = Ok b ->
  exists (high k : Z) (row : list pyfloat),
    py_int (fmul (of_Z (Z.of_nat (length features))) frac) = Ok high /\
    (0 <= k < high)%Z /\
    rccs !! Z.to_nat k = Some row /\
    b = Array0 (fadd (np_mean row) (fmul (Fin 2) (np_std row))).
Proof.
  unfold leading_edge_baseline. intros H.
  apply bind_Ok in H as (high & Hhigh & H).
  apply bind_Ok in H as (k & Hk & H).
  destruct (rccs !! Z.to_nat k) as [row |] eqn:Hrow; [| discriminate].
  injection H as <-.
  unfold np_random_randint in Hk.
  destruct (decide (0 < high)%Z) as [Hpos | ?]; [| discriminate].
  injection Hk as <-.
  exists high, (0 + rng mod (high - 0))%Z, row.
  repeat split; try assumption.
  - pose proof (Z.mod_pos_bound rng (high - 0)). lia.
  - pose proof (Z.mod_pos_bound rng (high - 0)). lia.
Qed.

Lemma scenario_row_statistics :
  np_mean [Fin 0; Fin 1] = Fin (1 / 2) /\ np_std [Fin 0; Fin 1] = Fin (1 / 2).
Proof.
  assert (Hm : np_mean [Fin 0; Fin 1] = Fin (1 / 2)).
  { unfold np_mean, of_Z. float_eval. f_equal. lra. }
  split; [exact Hm |].
  unfold np_std. rewrite Hm. unfold np_mean, of_Z. float_eval.
  f_equal. apply sqrt_lem_1; lra.
Qed.

Lemma scenario_sample_size :
  py_int (fmul (of_Z (Z.of_nat (length Scenario.features))) (Fin (1 / 2))) = Ok 2%Z.
Proof.
  unfold py_int, of_Z. float_eval.
  rewrite (Int_part_IZR_const (4 * (1 / 2)) 2) by lra. reflexivity.
Qed.

Lemma scenario_sampled_baseline :
  leading_edge_baseline Scenario.rccs Scenario.features (Some (Fin (1 / 2))) 1
  = Ok (Array0 (Fin (3 / 2))).
Proof.
  unfold leading_edge_baseline. rewrite scenario_sample_size, bind_Ok_l.
  unfold np_random_randint. rewrite decide_True by lia. rewrite bind_Ok_l.
  change (Scenario.rccs !! Z.to_nat (0 + 1 mod (2 - 0))) with (Some [Fin 0; Fin 1]).
  destruct scenario_row_statistics as [-> ->]. cbn.
  do 3 f_equal. lra.
Qed.

Lemma scenario_claimed_baseline :
  claimed_sampled_baseline Scenario.rccs Scenario.features (Fin (1 / 2))
  = Ok (Array1 [Fin (3 / 2); Fin 1]).
Proof.
  unfold claimed_sampled_baseline. rewrite scenario_sample_size, bind_Ok_l.
  change (Z.to_nat 2) with 2%nat.
  unfold np_mean_axis0, np_std_axis0, matrix_columns, Scenario.rccs. cbn.
  unfold np_std, np_mean, of_Z. float_eval.
  unfold mret, result_ret. repeat f_equal.
  - match goal with |- context [sqrt ?x] =>
      replace (sqrt x) with (1 / 2) by (symmetry; apply sqrt_lem_1; lra) end.
    lra.
  - match goal with |- context [sqrt ?x] =>
      replace (sqrt x) with 0 by (symmetry; apply sqrt_lem_1; lra) end.
    lra.
Qed.

(** ** The rows handed to the leading-edge kernel (C2) *)

(** C2 fails on the code: the loop pairs the rows of the annotation join
    with the curves and rank rows of all the enriched features by
    position. Here [f1] and [f2] are enriched and only [f2] is annotated:
    the kernel is called for [f2] with the curve and the rank row of
    [f1]. *)
Theorem leading_edge_rows_misaligned (leading_edge : leading_edge_kernel)
    (union : Regulome.t -> Regulome.t -> Regulome.t)
    (rt : Z) (at_ : pyfloat) (wr : bool) (rng : Z) :
  let idx := enrichment_mask (nes_values Scenario.aucs) (Fin 1) in
  let ef := [Scenario.enriched "f1"; Scenario.enriched "f2"] in
  enriched_frame "TF" Scenario.features (nes_values Scenario.aucs)
    Scenario.aucs idx = Ok ef /\
  merge_inner ef Scenario.annotations_second = [Scenario.annotated "f2"] /\
  (Scenario.features !! 1%nat = Some "f2" /\
   Scenario.rccs !! 1%nat = Some [Fin 0; Fin 1] /\
   Scenario.rankings !! 1%nat = Some [3; 4]%Z) /\
  (Scenario.features !! 0%nat = Some "f1" /\
   Scenario.rccs !! 0%nat = Some [Fin 1; Fin 1] /\
   Scenario.rankings !! 0%nat = Some [1; 2]%Z) /\
  loop_items (merge_inner ef Scenario.annotations_second) Scenario.rccs
    Scenario.rankings idx
    = Ok [(Scenario.annotated "f2", [Fin 1; Fin 1], [1; 2]%Z)] /\
  module2regulome Scenario.recovery leading_edge union Scenario.db
    Scenario.module Scenario.annotations_second rt at_ (Fin 1) None wr rng
  = Ok (Some (Scenario.regulome
                (leading_edge [Fin 1; Fin 1] Scenario.baseline [1; 2]%Z
                   Scenario.genes
                   (if wr then Scenario.module
                    else Regulome.noweights Scenario.module)))).
Proof.
  cbv zeta.
  split; [exact scenario_enriched_frame |].
  split; [exact scenario_join_second |].
  split; [repeat split |]. split; [repeat split |].
  split; [| apply scenario_run_second].
  rewrite scenario_mask, scenario_join_second. reflexivity.
Qed.

(** ** The sampled baseline (C3) *)

(** C3 fails on the code: with four features and a fraction of one half
    the baseline is not a curve over the two rows of the index range
    [0, 2) but the scalar [mean + 2 * std] of the entries of the single
    row drawn, here row 1, and this scalar is what the kernel receives. *)
Theorem sampled_baseline_is_one_row (leading_edge : leading_edge_kernel)
    (union : Regulome.t -> Regulome.t -> Regulome.t)
    (rt : Z) (at_ : pyfloat) (wr : bool) :
  let _module := if wr then Scenario.module
                 else Regulome.noweights Scenario.module in
  py_int (fmul (of_Z (Z.of_nat (length Scenario.features))) (Fin (1 / 2)))
    = Ok 2%Z /\
  Scenario.rccs !! 1%nat = Some [Fin 0; Fin 1] /\
  np_mean [Fin 0; Fin 1] = Fin (1 / 2) /\
  np_std [Fin 0; Fin 1] = Fin (1 / 2) /\
  leading_edge_baseline Scenario.rccs Scenario.features (Some (Fin (1 / 2))) 1
    = Ok (Array0 (Fin (3 / 2))) /\
  claimed_sampled_baseline Scenario.rccs Scenario.features (Fin (1 / 2))
    = Ok (Array1 [Fin (3 / 2); Fin 1]) /\
  module2regulome Scenario.recovery leading_edge union Scenario.db
    Scenario.module Scenario.annotations_both rt at_ (Fin 1)
    (Some (Fin (1 / 2))) wr 1
  = Ok (Some (union
          (Scenario.regulome
             (leading_edge [Fin 1; Fin 1] (Array0 (Fin (3 / 2))) [1; 2]%Z
                Scenario.genes _module))
          (Scenario.regulome
             (leading_edge [Fin 0; Fin 1] (Array0 (Fin (3 / 2))) [3; 4]%Z
                Scenario.genes _module)))).
Proof.
  intros _module.
  split; [exact scenario_sample_size |].
  split; [reflexivity |].
  split; [apply scenario_row_statistics |].
  split; [apply scenario_row_statistics |].
  split; [exact scenario_sampled_baseline |].
  split; [exact scenario_claimed_baseline |].
  apply scenario_run_both, scenario_sampled_baseline.
Qed.

(** ** The weights handed to the recovery kernel (C4) *)

(** C4 fails on the code: the recovery kernel receives the weights of the
    module whatever the flag. With [weighted_recovery] false and the
    weights 2 and 1/2, any kernel is called on the vector [2; 1/2], not on
    the uniform vector the copy without weights would give. *)
Theorem recovery_weights_ignore_flag (recovery : recovery_kernel)
    (leading_edge : leading_edge_kernel)
    (union : Regulome.t -> Regulome.t -> Regulome.t)
    (ann : list Annotation) (rt : Z) (at_ thr : pyfloat)
    (frac : option pyfloat) (rng : Z) :
  mapM (Regulome.getitem Scenario.module) Scenario.genes
    = Ok [Fin 2; Fin (1 / 2)] /\
  claimed_recovery_weights Scenario.module Scenario.genes false
    = Ok [Fin 1; Fin 1] /\
  module2regulome recovery leading_edge union Scenario.db Scenario.module
    ann rt at_ thr frac false rng
  = module2regulome
      (fun df total _ rank_threshold auc_threshold =>
         recovery df total [Fin 2; Fin (1 / 2)] rank_threshold auc_threshold)
      leading_edge union Scenario.db Scenario.module ann rt at_ thr frac false rng.
Proof.
  split; [exact scenario_weights |].
  split; [exact scenario_uniform_weights |].
  unfold module2regulome.
  change (load Scenario.db Scenario.module) with (Ok Scenario.table).
  rewrite !bind_Ok_l.
  change (columns Scenario.table) with Scenario.genes.
  rewrite scenario_weights, !bind_Ok_l. reflexivity.
Qed.

(** ** The batch (C1) *)

Lemma scenario_weights_differ :
  Scenario.regulome (Regulome.gene2weights (Regulome.noweights Scenario.module))
  <> Scenario.regulome (Regulome.gene2weights Scenario.module).
Proof.
  intros H.
  apply (f_equal (fun r => Regulome.gene2weights r !! "g1")) in H.
  change (Some (Fin 1) = Some (Fin 2)) in H.
  assert (Hr : 1 = 2) by congruence. lra.
Qed.

(** C1 fails on the code, twice. [derive_regulomes] builds its tasks
    without its [weighted_recovery] argument: called with the flag set, on
    one database and one module, its single task yields the regulome built
    from the copy of the module without weights, which is not the one
    [module2regulome] builds with the flag set. And the aggregation calls
    the builtin [filter] with a keyword argument, so that the call raises
    [TypeError] where the claim has it return the regulomes. *)
Theorem derive_regulomes_drops_weighted_recovery (cpu_count : nat)
    (fname : string) (rt : Z) (at_ fdr identity : pyfloat)
    (num_workers : option nat) (rng : nat -> Z) :
  derive_tasks Scenario.recovery Scenario.leading_edge Scenario.union
    [Scenario.db] [Scenario.module] Scenario.annotations_both rt at_ (Fin 1)
    None rng
  = [Ok (Some (Scenario.regulome
                 (Regulome.gene2weights (Regulome.noweights Scenario.module))))] /\
  module2regulome Scenario.recovery Scenario.leading_edge Scenario.union
    Scenario.db Scenario.module Scenario.annotations_both rt at_ (Fin 1)
    None true (rng 0%nat)
  = Ok (Some (Scenario.regulome (Regulome.gene2weights Scenario.module))) /\
  Scenario.regulome (Regulome.gene2weights (Regulome.noweights Scenario.module))
  <> Scenario.regulome (Regulome.gene2weights Scenario.module) /\
  derive_regulomes Scenario.recovery Scenario.leading_edge Scenario.union
    Scenario.load_motif_annotations cpu_count [Scenario.db] [Scenario.module]
    fname rt at_ (Fin 1) fdr identity None true num_workers rng
  = Raise TypeError.
Proof.
  assert (Htasks :
    derive_tasks Scenario.recovery Scenario.leading_edge Scenario.union
      [Scenario.db] [Scenario.module] Scenario.annotations_both rt at_ (Fin 1)
      None rng
    = [Ok (Some (Scenario.regulome
                   (Regulome.gene2weights (Regulome.noweights Scenario.module))))]).
  { unfold derive_tasks. cbn [mbind list_bind app foldr imap].
    rewrite (scenario_run_both Scenario.leading_edge Scenario.union rt at_
               None false (rng 0%nat) Scenario.baseline eq_refl).
    reflexivity. }
  split; [exact Htasks |]. split; [| split; [exact scenario_weights_differ |]].
  - rewrite (scenario_run_both Scenario.leading_edge Scenario.union rt at_
               None true (rng 0%nat) Scenario.baseline eq_refl).
    reflexivity.
  - unfold derive_regulomes.
    change (Scenario.load_motif_annotations fname fdr identity)
      with (Ok Scenario.annotations_both).
    rewrite bind_Ok_l, Htasks. reflexivity.
Qed.

(** * Further properties of the module *)

(** ** Faults of the collaborators *)

Lemma mapM_getitem_cases (module : Regulome.t) (genes : list string) :
  (exists ws, mapM (Regulome.getitem module) genes = Ok ws) \/
  mapM (Regulome.getitem module) genes = Raise KeyError.
Proof.
  induction genes as [| g genes IH]; cbn.
  - left. eexists. reflexivity.
  - assert (Hg : (exists w, Regulome.getitem module g = Ok w) \/
                 Regulome.getitem module g = Raise KeyError).
    { unfold Regulome.getitem.
      destruct (Regulome.gene2weights module !! g) as [w |]; eauto. }
    destruct Hg as [[w ->] | ->]; [| right; reflexivity].
    rewrite bind_Ok_l.
    destruct IH as [[ws ->] | ->]; [left; eexists; reflexivity | right; reflexivity].
Qed.

Lemma mapM_getitem_missing (module : Regulome.t) (genes : list string) (g : string) :
  g ∈ genes -> Regulome.gene2weights module !! g = None ->
  mapM (Regulome.getitem module) genes = Raise KeyError.
Proof.
  intros Hin Hnone.
  destruct (mapM_getitem_cases module genes) as [[ws Hws] | H]; [| exact H].
  apply mapM_Ok_Forall2 in Hws.
  apply list_elem_of_lookup in Hin as [i Hi].
  destruct (Forall2_lookup_l _ _ _ _ _ Hws Hi) as (w & _ & Hw).
  unfold Regulome.getitem in Hw. rewrite Hnone in Hw. discriminate.
Qed.

Lemma mask_select_mismatch {A} (mask : list bool) (xs : list A) :
  length mask <> length xs -> mask_select mask xs = Raise IndexError.
Proof. intros H. unfold mask_select. rewrite decide_False by exact H. reflexivity. Qed.

Section Faults.

Variable recovery : recovery_kernel.
Variable leading_edge : leading_edge_kernel.
Variable union : Regulome.t -> Regulome.t -> Regulome.t.

(** X1: a table with a gene column that the module does not hold makes
    [module2regulome] raise [KeyError]. *)
Theorem module2regulome_missing_gene (db : RankingDatabase)
    (module : Regulome.t) (ann : list Annotation) (rt : Z) (at_ thr : pyfloat)
    (frac : option pyfloat) (wr : bool) (rng : Z) (df : RankTable) (g : string) :
  load db module = Ok df ->
  g ∈ columns df ->
  Regulome.gene2weights module !! g = None ->
  module2regulome recovery leading_edge union db module ann rt at_ thr frac wr rng
    = Raise KeyError.
Proof.
  intros Hload Hin Hnone. unfold module2regulome.
  rewrite Hload, bind_Ok_l.
  rewrite (mapM_getitem_missing module (columns df) g Hin Hnone). reflexivity.
Qed.

(** X2: a recovery kernel that does not return one AUC per feature makes
    [module2regulome] raise [IndexError]. *)
Theorem module2regulome_auc_count_mismatch (db : RankingDatabase)
    (module : Regulome.t) (ann : list Annotation) (rt : Z) (at_ thr : pyfloat)
    (frac : option pyfloat) (wr : bool) (rng : Z)
    (df : RankTable) (weights : list pyfloat)
    (rccs : list (list pyfloat)) (aucs : list pyfloat) :
  load db module = Ok df ->
  mapM (Regulome.getitem module) (columns df) = Ok weights ->
  recovery df (total_genes db) weights rt at_ = (rccs, aucs) ->
  length aucs <> length (index df) ->
  module2regulome recovery leading_edge union db module ann rt at_ thr frac wr rng
    = Raise IndexError.
Proof.
  intros Hload Hw Hrec Hlen. unfold module2regulome.
  rewrite Hload, bind_Ok_l, Hw, bind_Ok_l, Hrec.
  unfold enriched_frame.
  rewrite (mask_select_mismatch _ (index df)); [reflexivity |].
  rewrite length_enrichment_mask, length_nes_values. exact Hlen.
Qed.


(** ** Faults of the scoring *)

Lemma mapM_Raise_uniform {A B} (f : A -> result B) (l : list A) (x : A) (e0 : exn) :
  (forall y e, f y = Raise e -> e = e0) ->
  x ∈ l -> f x = Raise e0 -> mapM f l = Raise e0.
Proof.
  intros Hf Hin Hx. induction l as [| y l IH]; [inversion Hin |].
  cbn. destruct (f y) as [b | e] eqn:Hy.
  - rewrite bind_Ok_l. apply elem_of_cons in Hin as [-> | Hin]; [congruence |].
    rewrite (IH Hin). reflexivity.
  - cbn. f_equal. eapply Hf, Hy.
Qed.

Lemma score_Raise_inv (N q oi : pyfloat) (e : exn) :
  score N q oi = Raise e ->
  e = ValueError /\ (q = NInf \/ exists r, q = Fin r /\ r < 0).
Proof.
  unfold score. destruct q as [| | | r]; cbn; try discriminate.
  - intros [= <-]. auto.
  - unfold Reqb, Rltb. destruct (Req_dec_T r 0) as [-> | Hr0]; cbn; [discriminate |].
    destruct (Rlt_dec 0 r) as [Hpos | Hneg]; cbn; [discriminate |].
    intros [= <-]. split; [reflexivity |]. right. exists r. split; [reflexivity | lra].
Qed.

Lemma score_negative_qvalue (N q oi : pyfloat) :
  q = NInf \/ (exists r, q = Fin r /\ r < 0) ->
  score N q oi = Raise ValueError.
Proof.
  intros [-> | (r & -> & Hr)]; unfold score; cbn; [reflexivity |].
  rewrite Reqb_false by lra. cbn. rewrite Rltb_false by lra. reflexivity.
Qed.

(** X3: the score fails exactly on a negative q-value (minus infinity
    included), and then with the [ValueError] of [math.log]; on every
    other q-value it has a value. *)
Theorem score_raises_iff (N q oi : pyfloat) (e : exn) :
  score N q oi = Raise e <->
  e = ValueError /\ (q = NInf \/ exists r, q = Fin r /\ r < 0).
Proof.
  split.
  - apply score_Raise_inv.
  - intros [-> Hq]. apply score_negative_qvalue, Hq.
Qed.

Lemma feature_regulome_raises (db : RankingDatabase) (module _module : Regulome.t)
    (genes : list string) (avg2stdrcc : ndarray)
    (item : Annotated * list pyfloat * list Z) (e : exn) :
  feature_regulome leading_edge db module _module genes avg2stdrcc item = Raise e <->
  score (af_NES item.1.1) (af_motif_similarity_qvalue item.1.1)
        (af_orthologous_identity item.1.1) = Raise e.
Proof.
  destruct item as [[row rcc] ranking]. unfold feature_regulome. cbn [fst snd].
  destruct (score _ _ _) as [s | e'].
  - rewrite bind_Ok_l. split; discriminate.
  - rewrite (bind_Raise _ _ e' eq_refl). split; intros [= ->]; reflexivity.
Qed.

(** X4: an annotation with a negative q-value on a scored row makes
    [module2regulome] raise [ValueError]. *)
Theorem module2regulome_negative_qvalue (db : RankingDatabase)
    (module : Regulome.t) (ann : list Annotation) (rt : Z) (at_ thr : pyfloat)
    (frac : option pyfloat) (wr : bool) (rng : Z)
    (df : RankTable) (weights : list pyfloat)
    (rccs : list (list pyfloat)) (aucs : list pyfloat) (ef : list Enriched)
    (avg2stdrcc : ndarray) (items : list (Annotated * list pyfloat * list Z))
    (row : Annotated) (rcc : list pyfloat) (ranking : list Z) :
  load db module = Ok df ->
  mapM (Regulome.getitem module) (columns df) = Ok weights ->
  recovery df (total_genes db) weights rt at_ = (rccs, aucs) ->
  enriched_frame (Regulome.transcription_factor module) (index df)
    (nes_values aucs) aucs (enrichment_mask (nes_values aucs) thr) = Ok ef ->
  leading_edge_baseline rccs (index df) frac rng = Ok avg2stdrcc ->
  loop_items (merge_inner ef ann) rccs (values df)
    (enrichment_mask (nes_values aucs) thr) = Ok items ->
  (row, rcc, ranking) ∈ items ->
  (af_motif_similarity_qvalue row = NInf \/
   exists r, af_motif_similarity_qvalue row = Fin r /\ r < 0) ->
  module2regulome recovery leading_edge union db module ann rt at_ thr frac wr rng
    = Raise ValueError.
Proof.
  intros Hload Hw Hrec Hef Hbase Hitems Hin Hq.
  rewrite (module2regulome_stages recovery leading_edge union db module ann rt
             at_ thr frac wr rng df weights rccs aucs ef Hload Hw Hrec Hef).
  assert (Hrow : row ∈ merge_inner ef ann).
  { unfold loop_items in Hitems.
    apply bind_Ok in Hitems as (rs & _ & H). apply bind_Ok in H as (ks & _ & H).
    injection H as <-. apply elem_of_zip3_l in Hin as (k & Hk & _).
    eapply list_elem_of_lookup_2, Hk. }
  destruct (decide (length ef = 0%nat)) as [He | _].
  { destruct ef; [inversion Hrow | discriminate]. }
  destruct (decide (length (merge_inner ef ann) = 0%nat)) as [He | _].
  { destruct (merge_inner ef ann); [inversion Hrow | discriminate]. }
  rewrite Hbase, bind_Ok_l, Hitems, bind_Ok_l.
  rewrite (mapM_Raise_uniform _ items (row, rcc, ranking) ValueError);
    [reflexivity | | exact Hin |].
  - intros y e Hy. apply feature_regulome_raises, score_Raise_inv in Hy as [-> _].
    reflexivity.
  - apply feature_regulome_raises, score_negative_qvalue. cbn [fst snd]. exact Hq.
Qed.

End Faults.

Lemma module2regulome_missing_gene_witness :
  module2regulome Scenario.recovery Scenario.leading_edge Scenario.union
    {| db_name := "db"; total_genes := 100;
       load := fun _ => Ok {| index := ["f1"]; columns := ["g1"; "g3"];
                              values := [[1; 2]%Z] |} |}
    Scenario.module Scenario.annotations_both 1500 (Fin 0.05) (Fin 3)
    None false 0
  = Raise KeyError.
Proof.
  apply (module2regulome_missing_gene Scenario.recovery Scenario.leading_edge
           Scenario.union _ Scenario.module Scenario.annotations_both 1500
           (Fin 0.05) (Fin 3) None false 0
           {| index := ["f1"]; columns := ["g1"; "g3"]; values := [[1; 2]%Z] |}
           "g3").
  - reflexivity.
  - cbn. apply elem_of_cons. right. apply elem_of_cons. left. reflexivity.
  - reflexivity.
Defined.

Lemma module2regulome_auc_count_mismatch_witness :
  module2regulome (fun _ _ _ _ _ => (Scenario.rccs, [Fin 1; Fin 0]))
    Scenario.leading_edge Scenario.union Scenario.db Scenario.module
    Scenario.annotations_both 1500 (Fin 0.05) (Fin 3) None false 0
  = Raise IndexError.
Proof.
  apply (module2regulome_auc_count_mismatch
           (fun _ _ _ _ _ => (Scenario.rccs, [Fin 1; Fin 0]))
           Scenario.leading_edge Scenario.union Scenario.db Scenario.module
           Scenario.annotations_both 1500 (Fin 0.05) (Fin 3) None false 0
           Scenario.table [Fin 2; Fin (1 / 2)] Scenario.rccs [Fin 1; Fin 0]).
  - reflexivity.
  - exact scenario_weights.
  - reflexivity.
  - cbn. lia.
Defined.

Lemma score_raises_iff_witness :
  score (Fin 3) (Fin (- 1)) NaN = Raise ValueError.
Proof.
  apply (score_raises_iff (Fin 3) (Fin (- 1)) NaN ValueError).
  split; [reflexivity |]. right. exists (- 1). split; [reflexivity | lra].
Defined.

Lemma module2regulome_negative_qvalue_witness :
  module2regulome Scenario.recovery Scenario.leading_edge Scenario.union
    Scenario.db Scenario.module
    [ {| an_key := ("TF", "f1"); an_motif_similarity_qvalue := Fin (- 1);
         an_orthologous_identity := NaN |} ]
    1500 (Fin 0.05) (Fin 1) None false 0
  = Raise ValueError.
Proof.
  apply (module2regulome_negative_qvalue Scenario.recovery Scenario.leading_edge
           Scenario.union Scenario.db Scenario.module _ 1500 (Fin 0.05) (Fin 1)
           None false 0 Scenario.table [Fin 2; Fin (1 / 2)] Scenario.rccs
           Scenario.aucs [Scenario.enriched "f1"; Scenario.enriched "f2"]
           Scenario.baseline
           [({| af_key := ("TF", "f1"); af_NES := Fin 1; af_AUC := Fin 1;
                af_motif_similarity_qvalue := Fin (- 1);
                af_orthologous_identity := NaN |}, [Fin 1; Fin 1], [1; 2]%Z)]
           {| af_key := ("TF", "f1"); af_NES := Fin 1; af_AUC := Fin 1;
              af_motif_similarity_qvalue := Fin (- 1);
              af_orthologous_identity := NaN |}
           [Fin 1; Fin 1] [1; 2]%Z).
  - reflexivity.
  - exact scenario_weights.
  - reflexivity.
  - exact scenario_enriched_frame.
  - reflexivity.
  - rewrite scenario_mask. reflexivity.
  - apply list_elem_of_singleton. reflexivity.
  - right. exists (- 1). split; [reflexivity | lra].
Defined.

(** ** Lengths of the frames *)

Lemma length_mask_filter_eq {A B} (mask : list bool) (xs : list A) (ys : list B) :
  length xs = length ys ->
  length (mask_filter mask xs) = length (mask_filter mask ys).
Proof.
  revert xs ys. induction mask as [| b mask IH]; intros [| x xs] [| y ys] H;
    try discriminate; try reflexivity.
  injection H as H. cbn. destruct b; cbn; rewrite (IH xs ys H); reflexivity.
Qed.

Lemma length_zip3 {A B C} (xs : list A) (ys : list B) (zs : list C) :
  length xs = length ys -> length ys = length zs ->
  length (zip3 xs ys zs) = length xs.
Proof.
  revert ys zs. induction xs as [| x xs IH]; intros [| y ys] [| z zs] H1 H2;
    try discriminate; try reflexivity.
  injection H1 as H1. injection H2 as H2. cbn. rewrite (IH _ _ H1 H2). reflexivity.
Qed.

Lemma length_enriched_frame (tf : string) (features : list string)
    (ness aucs : list pyfloat) (idx : list bool) (ef : list Enriched) :
  enriched_frame tf features ness aucs idx = Ok ef ->
  length ef = length (mask_filter idx aucs).
Proof.
  unfold enriched_frame. intros H.
  apply bind_Ok in H as (fs & Hfs & H). apply bind_Ok in H as (ns & Hns & H).
  apply bind_Ok in H as (au & Hau & H). injection H as <-.
  apply mask_select_Ok in Hfs as [Hl1 ->]. apply mask_select_Ok in Hns as [Hl2 ->].
  apply mask_select_Ok in Hau as [Hl3 ->].
  unfold enriched_rows. rewrite length_fmap, length_zip3.
  - apply length_mask_filter_eq. congruence.
  - apply length_mask_filter_eq. congruence.
  - apply length_mask_filter_eq. congruence.
Qed.

(** ** How the loop pairs rows *)

Lemma length_zip3_min {A B C} (xs : list A) (ys : list B) (zs : list C) :
  length (zip3 xs ys zs)
  = (length xs `min` (length ys `min` length zs))%nat.
Proof.
  revert ys zs. induction xs as [| x xs IH]; intros [| y ys] [| z zs]; cbn;
    try reflexivity; try lia.
  rewrite IH. reflexivity.
Qed.

Lemma merge_inner_cons (e : Enriched) (ef : list Enriched) (ann : list Annotation) :
  merge_inner (e :: ef) ann = merge_inner [e] ann ++ merge_inner ef ann.
Proof. unfold merge_inner. cbn. rewrite app_nil_r. reflexivity. Qed.

Lemma merge_inner_one (e : Enriched) (ann : list Annotation) :
  merge_inner [e] ann
  = (fun a => {| af_key := ef_key e; af_NES := ef_NES e; af_AUC := ef_AUC e;
                 af_motif_similarity_qvalue := an_motif_similarity_qvalue a;
                 af_orthologous_identity := an_orthologous_identity a |})
      <$> filter (fun a => ef_key e = an_key a) ann.
Proof.
  unfold merge_inner. cbn [mbind list_bind foldr]. rewrite app_nil_r.
  induction ann as [| a ann IH]; [reflexivity |].
  rewrite filter_cons. cbn [mbind list_bind foldr].
  destruct (decide (ef_key e = an_key a)); cbn [fmap list_fmap app]; rewrite <- IH;
    reflexivity.
Qed.

(** When every enriched feature has exactly one annotation, the join has
    one row per enriched feature, in the same order. *)
Lemma merge_inner_once (ef : list Enriched) (ann : list Annotation) :
  Forall (fun e => length (filter (fun a => ef_key e = an_key a) ann) = 1%nat) ef ->
  Forall2 (fun e row => af_key row = ef_key e /\ af_NES row = ef_NES e)
          ef (merge_inner ef ann).
Proof.
  induction 1 as [| e ef He _ IH]; [constructor |].
  rewrite merge_inner_cons, merge_inner_one.
  destruct (filter _ ann) as [| a [| ? ?]]; try discriminate.
  cbn. constructor; [split; reflexivity | exact IH].
Qed.

Lemma mask_filter_lookup_triple {A B C} (mask : list bool) (xs : list A)
    (ys : list B) (zs : list C) (k : nat) (x : A) (y : B) (z : C) :
  length xs = length ys -> length ys = length zs ->
  mask_filter mask xs !! k = Some x -> mask_filter mask ys !! k = Some y ->
  mask_filter mask zs !! k = Some z ->
  exists i : nat, mask !! i = Some true /\
    xs !! i = Some x /\ ys !! i = Some y /\ zs !! i = Some z.
Proof.
  revert xs ys zs k. induction mask as [| b mask IH]; intros xs ys zs k H1 H2 Hx Hy Hz.
  - discriminate.
  - destruct xs as [| x' xs], ys as [| y' ys], zs as [| z' zs]; try discriminate.
    injection H1 as H1. injection H2 as H2.
    cbn [mask_filter] in Hx, Hy, Hz. destruct b.
    + destruct k as [| k]; cbn in Hx, Hy, Hz.
      * exists 0%nat. cbn. repeat split; congruence.
      * destruct (IH _ _ _ _ H1 H2 Hx Hy Hz) as (i & ?). exists (S i). auto.
    + destruct (IH _ _ _ _ H1 H2 Hx Hy Hz) as (i & ?). exists (S i). auto.
Qed.

Lemma zip3_lookup {A B C} (xs : list A) (ys : list B) (zs : list C) (k : nat)
    (x : A) (y : B) (z : C) :
  zip3 xs ys zs !! k = Some (x, y, z) <->
  xs !! k = Some x /\ ys !! k = Some y /\ zs !! k = Some z.
Proof.
  revert ys zs k. induction xs as [| x' xs IH]; intros [| y' ys] [| z' zs] k;
    try (split; [discriminate | intros (? & ? & ?); discriminate]).
  destruct k as [| k]; cbn.
  - split; [intros [= -> -> ->]; auto | intros ([= ->] & [= ->] & [= ->]); reflexivity].
  - apply IH.
Qed.

Lemma enriched_rows_lookup (tf : string) (fs : list string) (ns au : list pyfloat)
    (k : nat) (e : Enriched) :
  enriched_rows tf fs ns au !! k = Some e ->
  exists f, fs !! k = Some f /\ ef_key e = (tf, f).
Proof.
  unfold enriched_rows. rewrite list_lookup_fmap.
  destruct (zip3 fs ns au !! k) as [[[f n] a] |] eqn:Hz; [| discriminate].
  intros [= <-]. exists f. split; [| reflexivity].
  apply zip3_lookup in Hz as (Hf & _). exact Hf.
Qed.

(** X8: when every enriched feature has exactly one annotation, the loop
    has one pass per enriched feature, and each pass gets the recovery
    curve and the rank row of the feature its annotation row names. *)
Theorem loop_items_aligned (tf : string) (features : list string)
    (ness aucs : list pyfloat) (rccs : list (list pyfloat))
    (rankings : list (list Z)) (idx : list bool)
    (ann : list Annotation) (ef : list Enriched) :
  length rccs = length features ->
  length rankings = length features ->
  enriched_frame tf features ness aucs idx = Ok ef ->
  Forall (fun e => length (filter (fun a => ef_key e = an_key a) ann) = 1%nat) ef ->
  exists items,
    loop_items (merge_inner ef ann) rccs rankings idx = Ok items /\
    length items = length ef /\
    forall row rcc ranking, (row, rcc, ranking) ∈ items ->
      exists (i : nat) (f : string),
        idx !! i = Some true /\ features !! i = Some f /\
        af_key row = (tf, f) /\
        rccs !! i = Some rcc /\ rankings !! i = Some ranking.
Proof.
  intros Hlr Hlk Hef Honce.
  pose proof (merge_inner_once ef ann Honce) as Hjoin.
  pose proof (length_enriched_frame _ _ _ _ _ _ Hef) as Hlen_ef.
  unfold enriched_frame in Hef.
  apply bind_Ok in Hef as (fs & Hfs & H). apply bind_Ok in H as (ns & Hns & H).
  apply bind_Ok in H as (au & Hau & H). injection H as <-.
  apply mask_select_Ok in Hfs as [Hl1 ->]. apply mask_select_Ok in Hns as [Hl2 ->].
  apply mask_select_Ok in Hau as [Hl3 ->].
  unfold loop_items.
  rewrite !mask_select_same_length by congruence. rewrite !bind_Ok_l.
  eexists. split; [reflexivity |].
  assert (Hla : length (mask_filter idx rccs) = length (mask_filter idx aucs)).
  { apply length_mask_filter_eq. congruence. }
  assert (Hlb : length (mask_filter idx rankings) = length (mask_filter idx aucs)).
  { apply length_mask_filter_eq. congruence. }
  split.
  - rewrite length_zip3_min, <- (Forall2_length _ _ _ Hjoin). lia.
  - intros row rcc ranking Hin.
    apply list_elem_of_lookup in Hin as [k Hk]. apply zip3_lookup in Hk as (Hrow & Hrcc & Hrank).
    destruct (Forall2_lookup_r _ _ _ _ _ Hjoin Hrow) as (e & He & Hkey & _).
    apply enriched_rows_lookup in He as (f & Hf & Hef_key).
    destruct (mask_filter_lookup_triple idx features rccs rankings k f rcc ranking)
      as (i & Hi & Hfi & Hri & Hki); try congruence.
    exists i, f. repeat split; try assumption. congruence.
Qed.

Lemma loop_items_aligned_witness :
  exists items,
    loop_items
      (merge_inner [Scenario.enriched "f1"; Scenario.enriched "f2"]
                   Scenario.annotations_both)
      Scenario.rccs Scenario.rankings
      (enrichment_mask (nes_values Scenario.aucs) (Fin 1)) = Ok items /\
    length items = length [Scenario.enriched "f1"; Scenario.enriched "f2"] /\
    forall row rcc ranking, (row, rcc, ranking) ∈ items ->
      exists (i : nat) (f : string),
        enrichment_mask (nes_values Scenario.aucs) (Fin 1) !! i = Some true /\
        Scenario.features !! i = Some f /\
        af_key row = ("TF", f) /\
        Scenario.rccs !! i = Some rcc /\ Scenario.rankings !! i = Some ranking.
Proof.
  apply (loop_items_aligned "TF" Scenario.features (nes_values Scenario.aucs)
           Scenario.aucs Scenario.rccs Scenario.rankings
           (enrichment_mask (nes_values Scenario.aucs) (Fin 1))
           Scenario.annotations_both
           [Scenario.enriched "f1"; Scenario.enriched "f2"]).
  - reflexivity.
  - reflexivity.
  - exact scenario_enriched_frame.
  - repeat constructor.
Defined.

(** ** How many regulomes are combined *)

Section Deriver2.

Variable recovery : recovery_kernel.
Variable leading_edge : leading_edge_kernel.
Variable union : Regulome.t -> Regulome.t -> Regulome.t.

(** X9: the number of per-feature regulomes that are combined is the
    smaller of the number of rows of the annotation join and the number of
    enriched features: rows of the join beyond that are not scored. *)
Theorem regulome_count (db : RankingDatabase)
    (module : Regulome.t) (ann : list Annotation) (rt : Z) (at_ thr : pyfloat)
    (frac : option pyfloat) (wr : bool) (rng : Z) (r : Regulome.t) :
  module2regulome recovery leading_edge union db module ann rt at_ thr frac wr rng
    = Ok (Some r) ->
  exists df weights rccs aucs ef regulomes,
    load db module = Ok df /\
    mapM (Regulome.getitem module) (columns df) = Ok weights /\
    recovery df (total_genes db) weights rt at_ = (rccs, aucs) /\
    enriched_frame (Regulome.transcription_factor module) (index df)
      (nes_values aucs) aucs (enrichment_mask (nes_values aucs) thr) = Ok ef /\
    reduce union regulomes = Ok r /\
    length regulomes
    = (length (merge_inner ef ann) `min` length ef)%nat.
Proof.
  intros Hr.
  apply module2regulome_Some_inv in Hr
    as (df & w & rccs & aucs & ef & base & items & regs &
        Hload & Hw & Hrec & Hef & _ & _ & Hitems & Hregs & Hred).
  exists df, w, rccs, aucs, ef, regs. repeat (split; [assumption |]).
  rewrite (mapM_Ok_length _ _ _ Hregs).
  rewrite (length_enriched_frame _ _ _ _ _ _ Hef).
  unfold loop_items in Hitems.
  apply bind_Ok in Hitems as (rs & Hrs & H). apply bind_Ok in H as (ks & Hks & H).
  injection H as <-.
  apply mask_select_Ok in Hrs as [Hl1 ->]. apply mask_select_Ok in Hks as [Hl2 ->].
  rewrite length_zip3_min.
  assert (Hl : length (enrichment_mask (nes_values aucs) thr) = length aucs).
  { rewrite length_enrichment_mask. apply length_nes_values. }
  rewrite (length_mask_filter_eq _ rccs aucs) by congruence.
  rewrite (length_mask_filter_eq _ (values df) aucs) by congruence.
  lia.
Qed.

End Deriver2.

Lemma regulome_count_witness :
  exists df weights rccs aucs ef regulomes,
    load Scenario.db Scenario.module = Ok df /\
    mapM (Regulome.getitem Scenario.module) (columns df) = Ok weights /\
    Scenario.recovery df (total_genes Scenario.db) weights 1500%Z (Fin 0.05)
      = (rccs, aucs) /\
    enriched_frame (Regulome.transcription_factor Scenario.module) (index df)
      (nes_values aucs) aucs (enrichment_mask (nes_values aucs) (Fin 1)) = Ok ef /\
    reduce Scenario.union regulomes
      = Ok (Scenario.regulome
              (Regulome.gene2weights (Regulome.noweights Scenario.module))) /\
    length regulomes
    = (length (merge_inner ef Scenario.annotations_second) `min` length ef)%nat.
Proof.
  apply (regulome_count Scenario.recovery Scenario.leading_edge Scenario.union
           Scenario.db Scenario.module Scenario.annotations_second 1500
           (Fin 0.05) (Fin 1) None false 0).
  apply (scenario_run_second Scenario.leading_edge Scenario.union).
Defined.

(** ** The sampled baseline: which draws succeed *)

(** X10: with a fraction in (0, 1], one curve per feature and at least
    one feature in the sampled range, the sampled baseline never fails:
    it is the scalar statistic of one existing row. *)
Theorem sampled_baseline_in_range (rccs : list (list pyfloat))
    (features : list string) (a : R) (rng : Z) :
  0 < a <= 1 ->
  length rccs = length features ->
  1 <= INR (length features) * a ->
  exists (k : nat) (row : list pyfloat),
    (k < length rccs)%nat /\ rccs !! k = Some row /\
    leading_edge_baseline rccs features (Some (Fin a)) rng
    = Ok (Array0 (fadd (np_mean row) (fmul (Fin 2) (np_std row)))).
Proof.
  intros [Ha0 Ha1] Hlen Hone.
  unfold leading_edge_baseline, py_int, of_Z. cbn [fmul].
  rewrite <- INR_IZR_INZ.
  set (x := INR (length features) * a) in *.
  rewrite Rltb_false by lra. rewrite bind_Ok_l.
  destruct (base_Int_part x) as [Hlo Hhi].
  assert (Hpos : (0 < Int_part x)%Z).
  { apply lt_IZR. lra. }
  assert (Hle : (Int_part x <= Z.of_nat (length features))%Z).
  { apply le_IZR. rewrite <- INR_IZR_INZ.
    assert (Hx : x <= INR (length features)).
    { unfold x. pose proof (pos_INR (length features)) as Hn.
      rewrite <- (Rmult_1_r (INR (length features))) at 2.
      apply Rmult_le_compat_l; [exact Hn | exact Ha1]. }
    lra. }
  unfold np_random_randint. rewrite decide_True by exact Hpos. rewrite bind_Ok_l.
  pose proof (Z.mod_pos_bound rng (Int_part x - 0)) as Hmod.
  assert (Hk : (Z.to_nat (0 + rng mod (Int_part x - 0)) < length rccs)%nat) by lia.
  destruct (lookup_lt_is_Some_2 rccs _ Hk) as [row Hrow].
  exists (Z.to_nat (0 + rng mod (Int_part x - 0))), row.
  rewrite Hrow. split; [exact Hk |]. split; reflexivity.
Qed.

(** X11: a draw at or beyond the number of curves, which a fraction above
    one allows, raises [IndexError]. *)
Theorem sampled_baseline_index_error (rccs : list (list pyfloat))
    (features : list string) (frac : pyfloat) (rng high : Z) :
  py_int (fmul (of_Z (Z.of_nat (length features))) frac) = Ok high ->
  (0 < high)%Z ->
  (Z.of_nat (length rccs) <= rng mod high)%Z ->
  leading_edge_baseline rccs features (Some frac) rng = Raise IndexError.
Proof.
  intros Hhigh Hpos Hout. unfold leading_edge_baseline.
  rewrite Hhigh, bind_Ok_l. unfold np_random_randint.
  rewrite decide_True by exact Hpos. rewrite bind_Ok_l.
  rewrite (lookup_ge_None_2 rccs); [reflexivity |].
  rewrite Z.sub_0_r, Z.add_0_l. lia.
Qed.

Lemma sampled_baseline_in_range_witness :
  exists (k : nat) (row : list pyfloat),
    (k < length Scenario.rccs)%nat /\ Scenario.rccs !! k = Some row /\
    leading_edge_baseline Scenario.rccs Scenario.features (Some (Fin (1 / 2))) 1
    = Ok (Array0 (fadd (np_mean row) (fmul (Fin 2) (np_std row)))).
Proof.
  apply (sampled_baseline_in_range Scenario.rccs Scenario.features (1 / 2) 1).
  - lra.
  - reflexivity.
  - replace (INR (length Scenario.features)) with 4 by (cbn; lra). lra.
Defined.

Lemma sampled_baseline_index_error_witness :
  leading_edge_baseline Scenario.rccs Scenario.features (Some (Fin 2)) 5
  = Raise IndexError.
Proof.
  apply (sampled_baseline_index_error Scenario.rccs Scenario.features (Fin 2) 5 8).
  - unfold py_int, of_Z. float_eval.
    rewrite (Int_part_IZR_const (4 * 2) 8) by lra. reflexivity.
  - lia.
  - apply Z.leb_le. reflexivity.
Defined.

(** ** The baseline over all curves *)

Lemma omap_lookup_column {A} (rows : list (list A)) (j : nat) :
  Forall (fun row => (j < length row)%nat) rows ->
  length (omap (fun row : list A => row !! j) rows) = length rows /\
  forall (i : nat) (row : list A), rows !! i = Some row ->
    omap (fun row : list A => row !! j) rows !! i = row !! j.
Proof.
  induction 1 as [| r rows Hr _ [IHl IHi]]; [split; [reflexivity | intros; discriminate] |].
  destruct (lookup_lt_is_Some_2 r j Hr) as [x Hx]. cbn. rewrite Hx. cbn. split.
  - rewrite IHl. reflexivity.
  - intros [| i] row Hrow; cbn in *; [congruence | apply IHi, Hrow].
Qed.

(** X12: without sampling, the baseline of a rectangular matrix of
    curves is a curve with one entry per rank position, and the entry at
    position [j] is [mean + 2 * std] of the column [j], which holds the
    [j]-th entry of every curve. *)
Theorem baseline_over_all_rows (rccs : list (list pyfloat))
    (features : list string) (rng : Z) (w : nat) :
  rccs <> [] ->
  Forall (fun row => length row = w) rccs ->
  exists b,
    leading_edge_baseline rccs features None rng = Ok (Array1 b) /\
    length b = w /\
    forall j : nat, (j < w)%nat ->
      exists col,
        length col = length rccs /\
        (forall (i : nat) (row : list pyfloat),
           rccs !! i = Some row -> col !! i = row !! j) /\
        b !! j = Some (fadd (np_mean col) (fmul (Fin 2) (np_std col))).
Proof.
  intros Hne Hrect. destruct rccs as [| r rccs]; [contradiction |].
  assert (Hw : length r = w) by (inversion Hrect; assumption).
  unfold leading_edge_baseline, np_mean_axis0, np_std_axis0, matrix_columns.
  eexists. split; [reflexivity |]. rewrite Hw. split.
  - rewrite length_zip_with, !length_map, length_seq. lia.
  - intros j Hj.
    exists (omap (fun row : list pyfloat => row !! j) (r :: rccs)).
    assert (Hcol : Forall (fun row : list pyfloat => (j < length row)%nat) (r :: rccs)).
    { eapply Forall_impl; [exact Hrect |]. cbn. intros row ->. exact Hj. }
    destruct (omap_lookup_column (r :: rccs) j Hcol) as [Hl Hi].
    split; [exact Hl |]. split; [exact Hi |].
    rewrite lookup_zip_with, !list_lookup_fmap, lookup_seq_lt by exact Hj.
    reflexivity.
Qed.

Lemma baseline_over_all_rows_witness :
  exists b,
    leading_edge_baseline Scenario.rccs Scenario.features None 0 = Ok (Array1 b) /\
    length b = 2%nat /\
    forall j : nat, (j < 2)%nat ->
      exists col,
        length col = length Scenario.rccs /\
        (forall (i : nat) (row : list pyfloat),
           Scenario.rccs !! i = Some row -> col !! i = row !! j) /\
        b !! j = Some (fadd (np_mean col) (fmul (Fin 2) (np_std col))).
Proof.
  apply (baseline_over_all_rows Scenario.rccs Scenario.features 0 2).
  - discriminate.
  - repeat constructor.
Defined.

(** ** The tasks of the batch *)

Lemma cross_product_cons {A B} (x : A) (xs : list A) (ys : list B) :
  (a ← x :: xs; b ← ys; [(a, b)]) = (pair x <$> ys) ++ (a ← xs; b ← ys; [(a, b)]).
Proof.
  cbn. f_equal.
Qed.

Lemma cross_product_length {A B} (xs : list A) (ys : list B) :
  length (a ← xs; b ← ys; [(a, b)]) = (length xs * length ys)%nat.
Proof.
  induction xs as [| x xs IH]; [reflexivity |].
  rewrite cross_product_cons, length_app, length_fmap, IH. reflexivity.
Qed.

Lemma cross_product_lookup {A B} (xs : list A) (ys : list B) (i j : nat) (x : A) (y : B) :
  xs !! i = Some x -> ys !! j = Some y ->
  (a ← xs; b ← ys; [(a, b)]) !! (i * length ys + j)%nat = Some (x, y).
Proof.
  revert i. induction xs as [| x' xs IH]; intros i Hx Hy; [discriminate |].
  rewrite cross_product_cons. destruct i as [| i]; cbn in Hx.
  - injection Hx as ->. rewrite lookup_app_l.
    + cbn. rewrite list_lookup_fmap, Hy. reflexivity.
    + rewrite length_fmap. apply lookup_lt_Some in Hy. cbn. lia.
  - rewrite lookup_app_r; rewrite length_fmap; [| cbn; lia].
    replace (S i * length ys + j - length ys)%nat with (i * length ys + j)%nat
      by (cbn; lia).
    apply IH; assumption.
Qed.

Section Batch.

Variable recovery : recovery_kernel.
Variable leading_edge : leading_edge_kernel.
Variable union : Regulome.t -> Regulome.t -> Regulome.t.
Variable load_motif_annotations :
  string -> pyfloat -> pyfloat -> result (list Annotation).
Variable cpu_count : nat.

(** X13: the batch has one task per (database, module) pair, enumerated
    database-major and module-minor: with [m] modules, the task at position
    [i * m + j] is the call for database [i] and module [j], always with
    [weighted_recovery] false. *)
Theorem derive_tasks_enumeration (rnkdbs : list RankingDatabase)
    (modules : list Regulome.t) (ann : list Annotation) (rt : Z)
    (at_ thr : pyfloat) (frac : option pyfloat) (rng : nat -> Z) :
  length (derive_tasks recovery leading_edge union rnkdbs modules ann rt at_
            thr frac rng)
  = (length rnkdbs * length modules)%nat /\
  forall (i j : nat) (db : RankingDatabase) (gs : Regulome.t),
    rnkdbs !! i = Some db -> modules !! j = Some gs ->
    derive_tasks recovery leading_edge union rnkdbs modules ann rt at_ thr
      frac rng !! (i * length modules + j)%nat
    = Some (module2regulome recovery leading_edge union db gs ann rt at_ thr
              frac false (rng (i * length modules + j)%nat)).
Proof.
  unfold derive_tasks. split.
  - rewrite length_imap. apply cross_product_length.
  - intros i j db gs Hdb Hgs.
    rewrite list_lookup_imap, (cross_product_lookup _ _ i j db gs Hdb Hgs).
    reflexivity.
Qed.

Lemma mapM_all_Ok {A} (tasks : list (result A)) :
  Forall (fun task => exists v, task = Ok v) tasks ->
  exists vs, mapM (fun task => task) tasks = Ok vs.
Proof.
  induction 1 as [| task tasks [v ->] _ [vs IH]]; [eexists; reflexivity |].
  cbn. rewrite IH. eexists. reflexivity.
Qed.

(** X14: [derive_regulomes] never returns a list: whatever its inputs,
    it raises. When the annotations load and every task finishes, the
    exception is the [TypeError] of the keyword call of [filter]. *)
Theorem derive_regulomes_never_returns (rnkdbs : list RankingDatabase)
    (modules : list Regulome.t) (fname : string) (rt : Z) (at_ thr : pyfloat)
    (fdr identity : pyfloat) (frac : option pyfloat) (wr : bool)
    (num_workers : option nat) (rng : nat -> Z) :
  (exists e,
     derive_regulomes recovery leading_edge union load_motif_annotations
       cpu_count rnkdbs modules fname rt at_ thr fdr identity frac wr
       num_workers rng = Raise e) /\
  forall ann,
    load_motif_annotations fname fdr identity = Ok ann ->
    Forall (fun task => exists v, task = Ok v)
      (derive_tasks recovery leading_edge union rnkdbs modules ann rt at_ thr
         frac rng) ->
    derive_regulomes recovery leading_edge union load_motif_annotations
      cpu_count rnkdbs modules fname rt at_ thr fdr identity frac wr
      num_workers rng = Raise TypeError.
Proof.
  unfold derive_regulomes, compute. split.
  - destruct (load_motif_annotations fname fdr identity) as [ann | e];
      [| exists e; reflexivity].
    rewrite bind_Ok_l.
    destruct (mapM _ _) as [vs | e]; [| exists e; reflexivity].
    exists TypeError. reflexivity.
  - intros ann -> Hall. rewrite bind_Ok_l.
    destruct (mapM_all_Ok _ Hall) as [vs ->]. reflexivity.
Qed.

End Batch.

Lemma derive_tasks_enumeration_witness :
  length (derive_tasks Scenario.recovery Scenario.leading_edge Scenario.union
            [Scenario.db] [Scenario.module] Scenario.annotations_both 1500
            (Fin 0.05) (Fin 1) None (fun _ => 0%Z))
  = (length [Scenario.db] * length [Scenario.module])%nat /\
  forall (i j : nat) (db : RankingDatabase) (gs : Regulome.t),
    [Scenario.db] !! i = Some db -> [Scenario.module] !! j = Some gs ->
    derive_tasks Scenario.recovery Scenario.leading_edge Scenario.union
      [Scenario.db] [Scenario.module] Scenario.annotations_both 1500
      (Fin 0.05) (Fin 1) None (fun _ => 0%Z)
      !! (i * length [Scenario.module] + j)%nat
    = Some (module2regulome Scenario.recovery Scenario.leading_edge
              Scenario.union db gs Scenario.annotations_both 1500 (Fin 0.05)
              (Fin 1) None false 0).
Proof.
  exact (derive_tasks_enumeration Scenario.recovery Scenario.leading_edge
           Scenario.union [Scenario.db] [Scenario.module]
           Scenario.annotations_both 1500 (Fin 0.05) (Fin 1) None (fun _ => 0%Z)).
Defined.

Lemma derive_regulomes_never_returns_witness :
  derive_regulomes Scenario.recovery Scenario.leading_edge Scenario.union
    Scenario.load_motif_annotations 4 [Scenario.db] [Scenario.module]
    "motifs.tbl" 1500 (Fin 0.05) (Fin 1) (Fin 0.001) (Fin 0) None false
    (Some 1%nat) (fun _ => 0%Z)
  = Raise TypeError.
Proof.
  apply (proj2 (derive_regulomes_never_returns Scenario.recovery
                  Scenario.leading_edge Scenario.union
                  Scenario.load_motif_annotations 4 [Scenario.db]
                  [Scenario.module] "motifs.tbl" 1500 (Fin 0.05) (Fin 1)
                  (Fin 0.001) (Fin 0) None false (Some 1%nat) (fun _ => 0%Z))
               Scenario.annotations_both).
  - reflexivity.
  - unfold derive_tasks. cbn [mbind list_bind app foldr imap].
    constructor; [| constructor].
    rewrite (scenario_run_both Scenario.leading_edge Scenario.union 1500
               (Fin 0.05) None false 0 Scenario.baseline eq_refl).
    eexists. reflexivity.
Defined.

(** * Properties on binary64 numbers *)

(** ** Comparisons with NaN and the quotient of two zeros *)

Lemma SFeqb_refl_false (x : spec_float) : SFeqb x x = false -> x = S754_nan.
Proof.
  destruct x as [s | s | | s m e]; unfold SFeqb; cbn.
  - discriminate.
  - destruct s; discriminate.
  - reflexivity.
  - rewrite Z.compare_refl.
    change (Pos.compare_cont Eq m m) with (Pos.compare m m).
    rewrite Pos.compare_refl. destruct s; discriminate.
Qed.

Lemma is_nan_Prim2SF (x : float) :
  PrimFloat.is_nan x = true -> Prim2SF x = S754_nan.
Proof.
  unfold PrimFloat.is_nan. rewrite FloatAxioms.eqb_spec. intros H.
  apply SFeqb_refl_false. destruct (SFeqb _ _); [discriminate | reflexivity].
Qed.

Lemma is_zero_Prim2SF (x : float) :
  PrimFloat.eqb x PrimFloat.zero = true -> exists s, Prim2SF x = S754_zero s.
Proof.
  rewrite FloatAxioms.eqb_spec. change (Prim2SF PrimFloat.zero) with (S754_zero false).
  destruct (Prim2SF x) as [s | s | | s m e]; unfold SFeqb; cbn; try discriminate.
  - eauto.
  - destruct s; discriminate.
  - destruct s; discriminate.
Qed.

Lemma leb_nan_r (t y : float) :
  Prim2SF y = S754_nan -> PrimFloat.leb t y = false.
Proof.
  intros H. rewrite FloatAxioms.leb_spec, H. unfold SFleb.
  destruct (Prim2SF t); reflexivity.
Qed.

(** A NaN divisor gives a NES that passes no threshold. *)
Lemma fge_div_nan (thr x s : float) :
  PrimFloat.is_nan s = true -> PrimFloat.leb thr (PrimFloat.div x s) = false.
Proof.
  intros H. apply leb_nan_r. rewrite FloatAxioms.div_spec, (is_nan_Prim2SF s H).
  unfold SF64div. destruct (Prim2SF x); reflexivity.
Qed.

(** So does a zero deviation over a zero divisor. *)
Lemma fge_div_zeros (thr d s : float) :
  PrimFloat.eqb d PrimFloat.zero = true ->
  PrimFloat.eqb s PrimFloat.zero = true ->
  PrimFloat.leb thr (PrimFloat.div d s) = false.
Proof.
  intros Hd Hs. apply leb_nan_r. rewrite FloatAxioms.div_spec.
  destruct (is_zero_Prim2SF d Hd) as [sd ->].
  destruct (is_zero_Prim2SF s Hs) as [ss ->]. reflexivity.
Qed.

(** ** The stages of the function *)

Lemma b64_length_enrichment_mask (ness : list float) (thr : float) :
  length (Binary64.enrichment_mask ness thr) = length ness.
Proof. unfold Binary64.enrichment_mask. apply length_map. Qed.

Lemma b64_enrichment_mask_all_false (ness : list float) (thr : float) :
  Forall (fun n => PrimFloat.leb thr n = false) ness ->
  Forall (fun b => b = false) (Binary64.enrichment_mask ness thr).
Proof. intros H. unfold Binary64.enrichment_mask. apply Forall_map. exact H. Qed.

Lemma b64_enrichment_mask_lookup (ness : list float) (thr : float) (i : nat) :
  Binary64.enrichment_mask ness thr !! i = Some true <->
  exists n, ness !! i = Some n /\ PrimFloat.leb thr n = true.
Proof.
  unfold Binary64.enrichment_mask, Binary64.fge. rewrite list_lookup_fmap. split.
  - destruct (ness !! i) as [n |]; cbn; [| discriminate].
    intros [= H]. eauto.
  - intros (n & -> & H). cbn. rewrite H. reflexivity.
Qed.

Lemma b64_elem_of_enriched_rows (tf : string) (fs : list string)
    (ns au : list float) (e : Binary64.Enriched) :
  e ∈ Binary64.enriched_rows tf fs ns au <->
  exists f n a, (f, n, a) ∈ zip3 fs ns au /\
    e = {| Binary64.ef_key := (tf, f); Binary64.ef_NES := n;
           Binary64.ef_AUC := a |}.
Proof.
  unfold Binary64.enriched_rows. rewrite list_elem_of_fmap. split.
  - intros ([[f n] a] & -> & H). eauto.
  - intros (f & n & a & H & ->). exists (f, n, a). auto.
Qed.

Lemma b64_elem_of_merge_inner (left : list Binary64.Enriched)
    (right : list Binary64.Annotation) (row : Binary64.Annotated) :
  row ∈ Binary64.merge_inner left right <->
  exists e a, e ∈ left /\ a ∈ right /\ Binary64.ef_key e = Binary64.an_key a /\
    row = {| Binary64.af_key := Binary64.ef_key e;
             Binary64.af_NES := Binary64.ef_NES e;
             Binary64.af_AUC := Binary64.ef_AUC e;
             Binary64.af_motif_similarity_qvalue :=
               Binary64.an_motif_similarity_qvalue a;
             Binary64.af_orthologous_identity :=
               Binary64.an_orthologous_identity a |}.
Proof.
  unfold Binary64.merge_inner. rewrite list_elem_of_bind. split.
  - intros (e & H & He). apply list_elem_of_bind in H as (a & H & Ha).
    destruct (decide (Binary64.ef_key e = Binary64.an_key a)) as [Hk | Hk].
    + apply list_elem_of_singleton in H. eauto 8.
    + inversion H.
  - intros (e & a & He & Ha & Hk & ->). exists e. split; [| exact He].
    apply list_elem_of_bind. exists a. split; [| exact Ha].
    rewrite decide_True by exact Hk. apply list_elem_of_singleton. reflexivity.
Qed.

Lemma b64_loop_items_origin (annotated_features : list Binary64.Annotated)
    (rccs : list (list float)) (rankings : list (list Z)) (ness : list float)
    (thr : float) (items : list (Binary64.Annotated * list float * list Z))
    (row : Binary64.Annotated) (rcc : list float) (ranking : list Z) :
  Binary64.loop_items annotated_features rccs rankings
    (Binary64.enrichment_mask ness thr) = Ok items ->
  (row, rcc, ranking) ∈ items ->
  row ∈ annotated_features /\
  exists (i : nat) (n : float),
    ness !! i = Some n /\ PrimFloat.leb thr n = true /\
    rccs !! i = Some rcc /\ rankings !! i = Some ranking.
Proof.
  unfold Binary64.loop_items. intros H Hin.
  apply bind_Ok in H as (rs & Hrs & H). apply bind_Ok in H as (ks & Hks & H).
  injection H as <-.
  apply mask_select_Ok in Hrs as [Hl1 ->]. apply mask_select_Ok in Hks as [Hl2 ->].
  apply elem_of_zip3_l in Hin as (k & Hrow & Hrcc & Hrank).
  split; [eapply list_elem_of_lookup_2, Hrow |].
  assert (Hlen : length rccs = length rankings) by congruence.
  destruct (mask_filter_lookup_pair _ _ _ _ _ _ Hlen Hrcc Hrank)
    as (i & Hm & ? & ?).
  apply b64_enrichment_mask_lookup in Hm as (n & ? & ?). eauto 8.
Qed.

Section Binary64Properties.

Variable lib : Binary64.Numerics.
Variable recovery : Binary64.recovery_kernel.
Variable leading_edge : Binary64.leading_edge_kernel.
Variable union : Binary64.Regulome.t -> Binary64.Regulome.t -> Binary64.Regulome.t.

Lemma b64_length_nes_values (aucs : list float) :
  length (Binary64.nes_values lib aucs) = length aucs.
Proof. unfold Binary64.nes_values. apply length_map. Qed.

Lemma b64_enriched_frame_Ok (tf : string) (features : list string)
    (aucs : list float) (thr : float) :
  length aucs = length features ->
  let ness := Binary64.nes_values lib aucs in
  let idx := Binary64.enrichment_mask ness thr in
  Binary64.enriched_frame tf features ness aucs idx =
  Ok (Binary64.enriched_rows tf (mask_filter idx features) (mask_filter idx ness)
        (mask_filter idx aucs)).
Proof.
  intros Hlen ness idx. unfold Binary64.enriched_frame.
  assert (Hidx : length idx = length aucs).
  { unfold idx, ness. rewrite b64_length_enrichment_mask. apply b64_length_nes_values. }
  rewrite !mask_select_same_length; [reflexivity | ..].
  - congruence.
  - unfold idx. apply b64_length_enrichment_mask.
  - exact Hidx.
Qed.

Lemma b64_module2regulome_stages (db : Binary64.RankingDatabase)
    (module : Binary64.Regulome.t) (ann : list Binary64.Annotation) (rt : Z)
    (at_ thr : float) (frac : option float) (wr : bool) (rng : Z)
    (df : RankTable) (weights : list float)
    (rccs : list (list float)) (aucs : list float) (ef : list Binary64.Enriched) :
  Binary64.load db module = Ok df ->
  mapM (Binary64.Regulome.getitem module) (columns df) = Ok weights ->
  recovery df (Binary64.total_genes db) weights rt at_ = (rccs, aucs) ->
  Binary64.enriched_frame (Binary64.Regulome.transcription_factor module)
    (index df) (Binary64.nes_values lib aucs) aucs
    (Binary64.enrichment_mask (Binary64.nes_values lib aucs) thr) = Ok ef ->
  Binary64.module2regulome lib recovery leading_edge union db module ann rt
    at_ thr frac wr rng =
  if decide (length ef = 0%nat) then Ok None else
  if decide (length (Binary64.merge_inner ef ann) = 0%nat) then Ok None else
  avg2stdrcc ← Binary64.leading_edge_baseline lib rccs (index df) frac rng;
  items ← Binary64.loop_items (Binary64.merge_inner ef ann) rccs (values df)
            (Binary64.enrichment_mask (Binary64.nes_values lib aucs) thr);
  regulomes ← mapM (Binary64.feature_regulome lib leading_edge db module
                      (if wr then module else Binary64.Regulome.noweights module)
                      (columns df) avg2stdrcc) items;
  r ← reduce union regulomes;
  mret (Some r).
Proof.
  intros Hload Hw Hrec Hef. unfold Binary64.module2regulome.
  rewrite Hload, bind_Ok_l, Hw, bind_Ok_l, Hrec, Hef, bind_Ok_l.
  reflexivity.
Qed.

(** After the two emptiness tests the function raises or returns a
    regulome, never [None]. *)
Lemma b64_tail_not_None (db : Binary64.RankingDatabase)
    (module _module : Binary64.Regulome.t) (genes : list string)
    (base : result Binary64.ndarray)
    (items : result (list (Binary64.Annotated * list float * list Z))) :
  (avg2stdrcc ← base;
   items' ← items;
   regulomes ← mapM (Binary64.feature_regulome lib leading_edge db module
                       _module genes avg2stdrcc) items';
   r ← reduce union regulomes;
   mret (Some r)) <> Ok None.
Proof.
  destruct base as [b | e]; [| discriminate]. rewrite bind_Ok_l.
  destruct items as [its | e]; [| discriminate]. rewrite bind_Ok_l.
  destruct (mapM _ its) as [regs | e]; [| discriminate]. rewrite bind_Ok_l.
  destruct (reduce union regs) as [r | e]; discriminate.
Qed.

Lemma b64_module2regulome_Some_inv (db : Binary64.RankingDatabase)
    (module : Binary64.Regulome.t) (ann : list Binary64.Annotation) (rt : Z)
    (at_ thr : float) (frac : option float) (wr : bool) (rng : Z)
    (r : Binary64.Regulome.t) :
  Binary64.module2regulome lib recovery leading_edge union db module ann rt
    at_ thr frac wr rng = Ok (Some r) ->
  exists df weights rccs aucs ef avg2stdrcc items regulomes,
    Binary64.load db module = Ok df /\
    mapM (Binary64.Regulome.getitem module) (columns df) = Ok weights /\
    recovery df (Binary64.total_genes db) weights rt at_ = (rccs, aucs) /\
    Binary64.enriched_frame (Binary64.Regulome.transcription_factor module)
      (index df) (Binary64.nes_values lib aucs) aucs
      (Binary64.enrichment_mask (Binary64.nes_values lib aucs) thr) = Ok ef /\
    Binary64.merge_inner ef ann <> [] /\
    Binary64.leading_edge_baseline lib rccs (index df) frac rng = Ok avg2stdrcc /\
    Binary64.loop_items (Binary64.merge_inner ef ann) rccs (values df)
      (Binary64.enrichment_mask (Binary64.nes_values lib aucs) thr) = Ok items /\
    mapM (Binary64.feature_regulome lib leading_edge db module
            (if wr then module else Binary64.Regulome.noweights module)
            (columns df) avg2stdrcc) items = Ok regulomes /\
    reduce union regulomes = Ok r.
Proof.
  unfold Binary64.module2regulome. intros H.
  apply bind_Ok in H as (df & Hload & H).
  apply bind_Ok in H as (weights & Hw & H).
  destruct (recovery df (Binary64.total_genes db) weights rt at_)
    as [rccs aucs] eqn:Hrec.
  apply bind_Ok in H as (ef & Hef & H).
  destruct (decide (length ef = 0%nat)) as [? | _]; [discriminate |].
  destruct (decide (length (Binary64.merge_inner ef ann) = 0%nat)) as [? | Hann];
    [discriminate |].
  apply bind_Ok in H as (base & Hbase & H).
  apply bind_Ok in H as (items & Hitems & H).
  apply bind_Ok in H as (regs & Hregs & H).
  apply bind_Ok in H as (r' & Hr & H).
  injection H as ->.
  exists df, weights, rccs, aucs, ef, base, items, regs.
  repeat split; try assumption.
  intros Hnil. apply Hann. rewrite Hnil. reflexivity.
Qed.


(** C6: the NES of a feature is its AUC minus the mean of the AUCs, over
    their standard deviation, and the enriched features are exactly the
    features whose NES is at least the threshold ([>=], with equality).
    With no annotated enriched feature the function returns [None];
    with one it never does, and when it returns a regulome, every row
    that was scored, and the curve and rank row that went with it to
    the leading-edge kernel, belong to features at or above the
    threshold. *)
Theorem enriched_exactly_at_threshold (db : Binary64.RankingDatabase)
    (module : Binary64.Regulome.t) (ann : list Binary64.Annotation) (rt : Z)
    (at_ thr : float) (frac : option float) (wr : bool) (rng : Z)
    (df : RankTable) (weights : list float)
    (rccs : list (list float)) (aucs : list float) :
  Binary64.load db module = Ok df ->
  mapM (Binary64.Regulome.getitem module) (columns df) = Ok weights ->
  recovery df (Binary64.total_genes db) weights rt at_ = (rccs, aucs) ->
  length aucs = length (index df) ->
  let tf := Binary64.Regulome.transcription_factor module in
  let nes := fun a : float =>
    PrimFloat.div (PrimFloat.sub a (Binary64.np_mean lib aucs))
                  (Binary64.np_std lib aucs) in
  let result :=
    Binary64.module2regulome lib recovery leading_edge union db module ann
      rt at_ thr frac wr rng in
  exists ef,
    Binary64.enriched_frame tf (index df) (Binary64.nes_values lib aucs) aucs
      (Binary64.enrichment_mask (Binary64.nes_values lib aucs) thr) = Ok ef /\
    (forall f n a,
       {| Binary64.ef_key := (tf, f); Binary64.ef_NES := n;
          Binary64.ef_AUC := a |} ∈ ef <->
       exists i : nat, index df !! i = Some f /\ aucs !! i = Some a /\
         n = nes a /\ PrimFloat.leb thr n = true) /\
    (forall row, row ∈ Binary64.merge_inner ef ann ->
       PrimFloat.leb thr (Binary64.af_NES row) = true /\
       exists (i : nat) (f : string) (a : float),
         index df !! i = Some f /\ aucs !! i = Some a /\
         Binary64.af_key row = (tf, f) /\ Binary64.af_NES row = nes a) /\
    (Binary64.merge_inner ef ann = [] -> result = Ok None) /\
    (Binary64.merge_inner ef ann <> [] -> result <> Ok None) /\
    (forall r, result = Ok (Some r) ->
       exists avg2stdrcc items regulomes,
         Binary64.loop_items (Binary64.merge_inner ef ann) rccs (values df)
           (Binary64.enrichment_mask (Binary64.nes_values lib aucs) thr)
           = Ok items /\
         mapM (Binary64.feature_regulome lib leading_edge db module
                 (if wr then module else Binary64.Regulome.noweights module)
                 (columns df) avg2stdrcc) items = Ok regulomes /\
         reduce union regulomes = Ok r /\
         forall row rcc ranking, (row, rcc, ranking) ∈ items ->
           PrimFloat.leb thr (Binary64.af_NES row) = true /\
           exists (i : nat) (a : float),
             aucs !! i = Some a /\ PrimFloat.leb thr (nes a) = true /\
             rccs !! i = Some rcc /\ values df !! i = Some ranking).
Proof.
  intros Hload Hw Hrec Hlen tf nes result.
  pose proof (b64_enriched_frame_Ok tf (index df) aucs thr Hlen) as Hef.
  cbv zeta in Hef.
  eexists. split; [exact Hef |].
  set (ness := Binary64.nes_values lib aucs) in *.
  set (idx := Binary64.enrichment_mask ness thr) in *.
  set (ef := Binary64.enriched_rows tf (mask_filter idx (index df))
               (mask_filter idx ness) (mask_filter idx aucs)) in *.
  assert (Hness : forall (i : nat) (n : float),
    ness !! i = Some n <-> exists a, aucs !! i = Some a /\ n = nes a).
  { intros i n. unfold ness, Binary64.nes_values. rewrite list_lookup_fmap.
    destruct (aucs !! i) as [a |]; cbn; split.
    - intros [= <-]. eauto.
    - intros (a' & [= <-] & ->). reflexivity.
    - discriminate.
    - intros (a' & ? & _). discriminate. }
  assert (Hrows : forall f n a,
    {| Binary64.ef_key := (tf, f); Binary64.ef_NES := n; Binary64.ef_AUC := a |} ∈ ef <->
    exists i : nat, index df !! i = Some f /\ aucs !! i = Some a /\
      n = nes a /\ PrimFloat.leb thr n = true).
  { intros f n a. unfold ef. rewrite b64_elem_of_enriched_rows. split.
    - intros (f' & n' & a' & Hin & [= -> -> ->]).
      apply elem_of_zip3_mask_filter in Hin as (i & Hm & Hf & Hn & Ha).
      + apply b64_enrichment_mask_lookup in Hm as (n0 & Hn0 & Hge).
        assert (n0 = n') by congruence. subst n0.
        apply Hness in Hn as (a0 & Ha0 & ->).
        assert (a0 = a') by congruence. subst a0.
        exists i. repeat split; assumption.
      + unfold ness. rewrite b64_length_nes_values. congruence.
      + unfold ness. apply b64_length_nes_values.
    - intros (i & Hf & Ha & -> & Hge). exists f, (nes a), a. split; [| reflexivity].
      apply elem_of_zip3_mask_filter.
      + unfold ness. rewrite b64_length_nes_values. congruence.
      + unfold ness. apply b64_length_nes_values.
      + exists i. assert (Hn : ness !! i = Some (nes a)) by (apply Hness; eauto).
        repeat split; try assumption.
        apply b64_enrichment_mask_lookup. eauto. }
  assert (Hjoin : forall row, row ∈ Binary64.merge_inner ef ann ->
    PrimFloat.leb thr (Binary64.af_NES row) = true /\
    exists (i : nat) (f : string) (a : float),
      index df !! i = Some f /\ aucs !! i = Some a /\
      Binary64.af_key row = (tf, f) /\ Binary64.af_NES row = nes a).
  { intros row Hrow.
    apply b64_elem_of_merge_inner in Hrow as (e & a & He & _ & _ & ->). cbn.
    pose proof He as He'.
    apply b64_elem_of_enriched_rows in He' as (f & n & a' & _ & ->).
    apply Hrows in He as (i & Hf & Ha & -> & Hge). cbn.
    split; [exact Hge |]. exists i, f, a'. auto. }
  pose proof (b64_module2regulome_stages db module ann rt at_ thr frac wr rng
                df weights rccs aucs ef Hload Hw Hrec Hef) as Hst.
  fold result in Hst.
  split; [exact Hrows |]. split; [exact Hjoin |].
  split; [| split].
  - intros Hnil. rewrite Hst, Hnil.
    destruct (decide (length ef = 0%nat)); reflexivity.
  - intros Hne. rewrite Hst.
    destruct (decide (length ef = 0%nat)) as [He | _].
    { destruct ef; [| discriminate]. contradiction Hne. reflexivity. }
    destruct (decide (length (Binary64.merge_inner ef ann) = 0%nat)) as [He | _].
    { destruct (Binary64.merge_inner ef ann); [contradiction | discriminate]. }
    apply b64_tail_not_None.
  - intros r Hr. unfold result in Hr.
    apply b64_module2regulome_Some_inv in Hr
      as (df' & w' & rccs' & aucs' & ef' & base & items & regs &
          Hload' & Hw' & Hrec' & Hef' & _ & _ & Hitems & Hregs & Hred).
    rewrite Hload in Hload'. injection Hload' as <-.
    rewrite Hw in Hw'. injection Hw' as <-.
    rewrite Hrec in Hrec'. injection Hrec' as <- <-.
    fold ness idx tf in Hef', Hitems. rewrite Hef in Hef'. injection Hef' as <-.
    exists base, items, regs. repeat split; try assumption.
    + destruct (b64_loop_items_origin _ _ _ _ _ _ _ _ _ Hitems H) as [Hrow _].
      apply Hjoin, Hrow.
    + destruct (b64_loop_items_origin _ _ _ _ _ _ _ _ _ Hitems H)
        as [_ (i & n & Hn & Hge & Hrcc & Hrank)].
      apply Hness in Hn as (a & Ha & ->). eauto 8.
Qed.

(** C7, amended: a pair with no feature, with a NaN standard deviation
    of the AUCs, with a zero standard deviation and every AUC at the
    mean, with no NES at the threshold, or with an empty annotation join
    yields [None] and raises nothing, provided the table was loaded, its
    genes belong to the module and the kernel returned one AUC per
    feature. *)
Theorem module2regulome_none_binary64 (db : Binary64.RankingDatabase)
    (module : Binary64.Regulome.t) (ann : list Binary64.Annotation) (rt : Z)
    (at_ thr : float) (frac : option float) (wr : bool) (rng : Z)
    (df : RankTable) (weights : list float)
    (rccs : list (list float)) (aucs : list float) :
  Binary64.load db module = Ok df ->
  mapM (Binary64.Regulome.getitem module) (columns df) = Ok weights ->
  recovery df (Binary64.total_genes db) weights rt at_ = (rccs, aucs) ->
  length aucs = length (index df) ->
  index df = [] \/
  PrimFloat.is_nan (Binary64.np_std lib aucs) = true \/
  (PrimFloat.eqb (Binary64.np_std lib aucs) PrimFloat.zero = true /\
   Forall (fun a => PrimFloat.eqb (PrimFloat.sub a (Binary64.np_mean lib aucs))
                                  PrimFloat.zero = true) aucs) \/
  Forall (fun a =>
            PrimFloat.leb thr
              (PrimFloat.div (PrimFloat.sub a (Binary64.np_mean lib aucs))
                             (Binary64.np_std lib aucs)) = false) aucs \/
  (forall ef,
     Binary64.enriched_frame (Binary64.Regulome.transcription_factor module)
       (index df) (Binary64.nes_values lib aucs) aucs
       (Binary64.enrichment_mask (Binary64.nes_values lib aucs) thr) = Ok ef ->
     Binary64.merge_inner ef ann = []) ->
  Binary64.module2regulome lib recovery leading_edge union db module ann rt
    at_ thr frac wr rng = Ok None.
Proof.
  intros Hload Hw Hrec Hlen Hcase.
  pose proof (b64_enriched_frame_Ok (Binary64.Regulome.transcription_factor module)
                (index df) aucs thr Hlen) as Hef. cbv zeta in Hef.
  rewrite (b64_module2regulome_stages db module ann rt at_ thr frac wr rng
             df weights rccs aucs _ Hload Hw Hrec Hef).
  assert (Hsub :
    Forall (fun a =>
              PrimFloat.leb thr
                (PrimFloat.div (PrimFloat.sub a (Binary64.np_mean lib aucs))
                               (Binary64.np_std lib aucs)) = false) aucs \/
    (forall ef,
       Binary64.enriched_frame (Binary64.Regulome.transcription_factor module)
         (index df) (Binary64.nes_values lib aucs) aucs
         (Binary64.enrichment_mask (Binary64.nes_values lib aucs) thr) = Ok ef ->
       Binary64.merge_inner ef ann = [])).
  { destruct Hcase as [Hnil | [Hn | [[Hz Hdev] | [Hall | Hjoin]]]].
    - left. rewrite Hnil in Hlen. destruct aucs; [constructor | discriminate].
    - left. apply Forall_forall. intros a _. apply fge_div_nan, Hn.
    - left. eapply Forall_impl; [exact Hdev |]. cbn. intros a Ha.
      apply fge_div_zeros; assumption.
    - left. exact Hall.
    - right. exact Hjoin. }
  destruct Hsub as [Hall | Hjoin].
  - assert (Hmask : Forall (fun b => b = false)
      (Binary64.enrichment_mask (Binary64.nes_values lib aucs) thr)).
    { apply b64_enrichment_mask_all_false. unfold Binary64.nes_values.
      apply Forall_map. exact Hall. }
    rewrite !(mask_filter_all_false _ _ Hmask). reflexivity.
  - rewrite (Hjoin _ Hef).
    destruct (decide (length _ = 0%nat)); reflexivity.
Qed.

(** C10, amended: with a sampling fraction whose product with the
    number of features, taken in binary64 as the code takes it, has
    integer part zero, a pair with an annotated enriched feature raises
    [ValueError]: the random range is empty. *)
Theorem module2regulome_empty_sample_range_binary64
    (db : Binary64.RankingDatabase) (module : Binary64.Regulome.t)
    (ann : list Binary64.Annotation) (rt : Z) (at_ thr : float)
    (frac : float) (wr : bool) (rng : Z)
    (df : RankTable) (weights : list float)
    (rccs : list (list float)) (aucs : list float) (ef : list Binary64.Enriched) :
  Binary64.load db module = Ok df ->
  mapM (Binary64.Regulome.getitem module) (columns df) = Ok weights ->
  recovery df (Binary64.total_genes db) weights rt at_ = (rccs, aucs) ->
  Binary64.enriched_frame (Binary64.Regulome.transcription_factor module)
    (index df) (Binary64.nes_values lib aucs) aucs
    (Binary64.enrichment_mask (Binary64.nes_values lib aucs) thr) = Ok ef ->
  Binary64.merge_inner ef ann <> [] ->
  Binary64.py_int
    (PrimFloat.mul (Binary64.of_Z (Z.of_nat (length (index df)))) frac) = Ok 0%Z ->
  Binary64.module2regulome lib recovery leading_edge union db module ann rt
    at_ thr (Some frac) wr rng = Raise ValueError.
Proof.
  intros Hload Hw Hrec Hef Hann Hint.
  rewrite (b64_module2regulome_stages db module ann rt at_ thr _ wr rng
             df weights rccs aucs ef Hload Hw Hrec Hef).
  destruct (decide (length ef = 0%nat)) as [He | _].
  { destruct ef; [| discriminate]. contradiction Hann. reflexivity. }
  destruct (decide (length (Binary64.merge_inner ef ann) = 0%nat)) as [He | _].
  { destruct (Binary64.merge_inner ef ann); [contradiction | discriminate]. }
  apply bind_Raise. unfold Binary64.leading_edge_baseline.
  rewrite Hint. reflexivity.
Qed.

End Binary64Properties.

(** ** The small pairs on doubles *)

(** C7 fails on the code: the AUCs [2^-664; 0] have mean 2^-665, squared
    deviations that underflow to zero and so a standard deviation of
    zero, but the deviations themselves are not zero: the NES are
    [+inf; -inf], the first feature passes the threshold 3.0, and with an
    annotation for it the function returns a regulome, not [None]. *)
Lemma none_claim_fails_on_underflow :
  PrimFloat.eqb (Binary64.np_std Binary64.Scenario.lib Binary64.Scenario.aucs2)
                PrimFloat.zero = true /\
  Binary64.nes_values Binary64.Scenario.lib Binary64.Scenario.aucs2
    = [PrimFloat.infinity; PrimFloat.neg_infinity] /\
  Binary64.module2regulome Binary64.Scenario.lib Binary64.Scenario.recovery2
    Binary64.Scenario.leading_edge Binary64.Scenario.union
    Binary64.Scenario.db2 Binary64.Scenario.module
    Binary64.Scenario.annotations 1500 Binary64.Scenario.auc_threshold
    3%float None false 0
  = Ok (Some (Binary64.Scenario.regulome PrimFloat.infinity)).
Proof. repeat split; vm_compute; reflexivity. Qed.

(** C10 fails on the code: one third as a double is
    6004799503160661 / 2^54, so that three times it is below one and the
    integer part of the exact product is zero; but the product of the
    doubles rounds to 1.0, [int] gives 1, the random range [0, 1) is not
    empty and the function returns a regulome. *)
Lemma empty_range_claim_fails_on_rounding :
  Prim2SF Binary64.Scenario.third
    = S754_finite false 6004799503160661 (-54) /\
  Int_part (3 * (6004799503160661 / 2 ^ 54))%R = 0%Z /\
  Binary64.py_int
    (PrimFloat.mul (Binary64.of_Z (Z.of_nat (length (index Binary64.Scenario.table3))))
                   Binary64.Scenario.third) = Ok 1%Z /\
  Binary64.module2regulome Binary64.Scenario.lib Binary64.Scenario.recovery3
    Binary64.Scenario.leading_edge Binary64.Scenario.union
    Binary64.Scenario.db3 Binary64.Scenario.module
    Binary64.Scenario.annotations 1500 Binary64.Scenario.auc_threshold
    1%float (Some Binary64.Scenario.third) false 0
  = Ok (Some (Binary64.Scenario.regulome 0x1.6a09e667f3bcdp+0%float)).
Proof.
  split; [vm_compute; reflexivity |].
  split; [symmetry; apply Int_part_spec; lra |].
  split; vm_compute; reflexivity.
Qed.

Lemma enriched_exactly_at_threshold_witness :
  let tf := Binary64.Regulome.transcription_factor Binary64.Scenario.module in
  let nes := fun a : float =>
    PrimFloat.div
      (PrimFloat.sub a (Binary64.np_mean Binary64.Scenario.lib Binary64.Scenario.aucs3))
      (Binary64.np_std Binary64.Scenario.lib Binary64.Scenario.aucs3) in
  let result :=
    Binary64.module2regulome Binary64.Scenario.lib Binary64.Scenario.recovery3
      Binary64.Scenario.leading_edge Binary64.Scenario.union
      Binary64.Scenario.db3 Binary64.Scenario.module
      Binary64.Scenario.annotations 1500 Binary64.Scenario.auc_threshold
      1%float None false 0 in
  exists ef,
    Binary64.enriched_frame tf (index Binary64.Scenario.table3)
      (Binary64.nes_values Binary64.Scenario.lib Binary64.Scenario.aucs3)
      Binary64.Scenario.aucs3
      (Binary64.enrichment_mask
         (Binary64.nes_values Binary64.Scenario.lib Binary64.Scenario.aucs3)
         1%float) = Ok ef /\
    (forall f n a,
       {| Binary64.ef_key := (tf, f); Binary64.ef_NES := n;
          Binary64.ef_AUC := a |} ∈ ef <->
       exists i : nat, index Binary64.Scenario.table3 !! i = Some f /\
         Binary64.Scenario.aucs3 !! i = Some a /\
         n = nes a /\ PrimFloat.leb 1%float n = true) /\
    (forall row, row ∈ Binary64.merge_inner ef Binary64.Scenario.annotations ->
       PrimFloat.leb 1%float (Binary64.af_NES row) = true /\
       exists (i : nat) (f : string) (a : float),
         index Binary64.Scenario.table3 !! i = Some f /\
         Binary64.Scenario.aucs3 !! i = Some a /\
         Binary64.af_key row = (tf, f) /\ Binary64.af_NES row = nes a) /\
    (Binary64.merge_inner ef Binary64.Scenario.annotations = [] ->
     result = Ok None) /\
    (Binary64.merge_inner ef Binary64.Scenario.annotations <> [] ->
     result <> Ok None) /\
    (forall r, result = Ok (Some r) ->
       exists avg2stdrcc items regulomes,
         Binary64.loop_items
           (Binary64.merge_inner ef Binary64.Scenario.annotations)
           Binary64.Scenario.rccs3 (values Binary64.Scenario.table3)
           (Binary64.enrichment_mask
              (Binary64.nes_values Binary64.Scenario.lib Binary64.Scenario.aucs3)
              1%float) = Ok items /\
         mapM (Binary64.feature_regulome Binary64.Scenario.lib
                 Binary64.Scenario.leading_edge Binary64.Scenario.db3
                 Binary64.Scenario.module
                 (Binary64.Regulome.noweights Binary64.Scenario.module)
                 (columns Binary64.Scenario.table3) avg2stdrcc) items
           = Ok regulomes /\
         reduce Binary64.Scenario.union regulomes = Ok r /\
         forall row rcc ranking, (row, rcc, ranking) ∈ items ->
           PrimFloat.leb 1%float (Binary64.af_NES row) = true /\
           exists (i : nat) (a : float),
             Binary64.Scenario.aucs3 !! i = Some a /\
             PrimFloat.leb 1%float (nes a) = true /\
             Binary64.Scenario.rccs3 !! i = Some rcc /\
             values Binary64.Scenario.table3 !! i = Some ranking).
Proof.
  apply (enriched_exactly_at_threshold Binary64.Scenario.lib
           Binary64.Scenario.recovery3 Binary64.Scenario.leading_edge
           Binary64.Scenario.union Binary64.Scenario.db3
           Binary64.Scenario.module Binary64.Scenario.annotations 1500
           Binary64.Scenario.auc_threshold 1%float None false 0
           Binary64.Scenario.table3 [2%float; 0.5%float]
           Binary64.Scenario.rccs3 Binary64.Scenario.aucs3).
  - reflexivity.
  - vm_compute. reflexivity.
  - reflexivity.
  - reflexivity.
Defined.

Lemma module2regulome_none_binary64_witness :
  Binary64.module2regulome Binary64.Scenario.lib Binary64.Scenario.recovery3
    Binary64.Scenario.leading_edge Binary64.Scenario.union
    Binary64.Scenario.db3 Binary64.Scenario.module
    Binary64.Scenario.annotations 1500 Binary64.Scenario.auc_threshold
    3%float None false 0
  = Ok None.
Proof.
  apply (module2regulome_none_binary64 Binary64.Scenario.lib
           Binary64.Scenario.recovery3 Binary64.Scenario.leading_edge
           Binary64.Scenario.union Binary64.Scenario.db3
           Binary64.Scenario.module Binary64.Scenario.annotations 1500
           Binary64.Scenario.auc_threshold 3%float None false 0
           Binary64.Scenario.table3 [2%float; 0.5%float]
           Binary64.Scenario.rccs3 Binary64.Scenario.aucs3).
  - reflexivity.
  - vm_compute. reflexivity.
  - reflexivity.
  - reflexivity.
  - right. right. right. left. repeat constructor.
Defined.

Lemma module2regulome_empty_sample_range_binary64_witness :
  Binary64.module2regulome Binary64.Scenario.lib Binary64.Scenario.recovery3
    Binary64.Scenario.leading_edge Binary64.Scenario.union
    Binary64.Scenario.db3 Binary64.Scenario.module
    Binary64.Scenario.annotations 1500 Binary64.Scenario.auc_threshold
    1%float (Some 0.125%float) false 0
  = Raise ValueError.
Proof.
  apply (module2regulome_empty_sample_range_binary64 Binary64.Scenario.lib
           Binary64.Scenario.recovery3 Binary64.Scenario.leading_edge
           Binary64.Scenario.union Binary64.Scenario.db3
           Binary64.Scenario.module Binary64.Scenario.annotations 1500
           Binary64.Scenario.auc_threshold 1%float 0.125%float false 0
           Binary64.Scenario.table3 [2%float; 0.5%float]
           Binary64.Scenario.rccs3 Binary64.Scenario.aucs3
           [ {| Binary64.ef_key := ("TF", "f1");
                Binary64.ef_NES := 0x1.6a09e667f3bcdp+0%float;
                Binary64.ef_AUC := 1%float |} ]).
  - reflexivity.
  - vm_compute. reflexivity.
  - reflexivity.
  - vm_compute. reflexivity.
  - vm_compute. discriminate.
  - vm_compute. reflexivity.
Defined.

(** ** The mapping of a regulome (C8) *)

Lemma scenario_rank_mappings_differ (avg2stdrcc : ndarray) (m : Regulome.t) :
  Scenario.leading_edge_ranks [Fin 1; Fin 1] avg2stdrcc [1; 2]%Z Scenario.genes m
  <> Scenario.leading_edge_ranks [Fin 0; Fin 1] avg2stdrcc [3; 4]%Z Scenario.genes m.
Proof.
  intros H. apply (f_equal (fun g2w : gmap string pyfloat => g2w !! "g1")) in H.
  change (Some (of_Z 1) = Some (of_Z 3)) in H.
  assert (Hr : IZR 1 = IZR 3) by (unfold of_Z in H; congruence).
  lra.
Qed.

(** C8 fails on the code, by the defect of C2. The regulome built for an
    annotated feature has the name, the nomenclature and the
    transcription factor of the module, its context with the name of the
    database and the score of its row, but its mapping is the kernel's
    output on the curve and the rank row that the loop paired with the
    row by position. Here the only annotated feature is [f2], and its
    regulome carries the output on the rows of [f1]; for the kernel that
    records the rank row this is the mapping [g1: 1, g2: 2], not the
    mapping [g1: 3, g2: 4] of the rows of [f2]. *)
Theorem regulome_mapping_of_other_feature (leading_edge : leading_edge_kernel)
    (union : Regulome.t -> Regulome.t -> Regulome.t)
    (rt : Z) (at_ : pyfloat) (wr : bool) (rng : Z) :
  let _module := if wr then Scenario.module
                 else Regulome.noweights Scenario.module in
  let built := fun le : leading_edge_kernel =>
    Regulome.mk (Regulome.name Scenario.module) (Fin 1)
      (Regulome.nomenclature Scenario.module)
      (Regulome.context Scenario.module ∪ {[ db_name Scenario.db ]})
      (Regulome.transcription_factor Scenario.module)
      (le [Fin 1; Fin 1] Scenario.baseline [1; 2]%Z Scenario.genes _module) in
  (af_key (Scenario.annotated "f2") = ("TF", "f2") /\
   Scenario.features !! 1%nat = Some "f2" /\
   Scenario.rccs !! 1%nat = Some [Fin 0; Fin 1] /\
   Scenario.rankings !! 1%nat = Some [3; 4]%Z) /\
  loop_items
    (merge_inner [Scenario.enriched "f1"; Scenario.enriched "f2"]
                 Scenario.annotations_second)
    Scenario.rccs Scenario.rankings
    (enrichment_mask (nes_values Scenario.aucs) (Fin 1))
    = Ok [(Scenario.annotated "f2", [Fin 1; Fin 1], [1; 2]%Z)] /\
  mapM (feature_regulome leading_edge Scenario.db Scenario.module _module
          Scenario.genes Scenario.baseline)
       [(Scenario.annotated "f2", [Fin 1; Fin 1], [1; 2]%Z)]
    = Ok [built leading_edge] /\
  module2regulome Scenario.recovery leading_edge union Scenario.db
    Scenario.module Scenario.annotations_second rt at_ (Fin 1) None wr rng
    = Ok (Some (built leading_edge)) /\
  Regulome.gene2weights (built Scenario.leading_edge_ranks)
    <> Scenario.leading_edge_ranks [Fin 0; Fin 1] Scenario.baseline [3; 4]%Z
         Scenario.genes _module.
Proof.
  intros _module built.
  split; [repeat split |].
  split; [| split; [| split]].
  - rewrite scenario_mask, scenario_join_second. reflexivity.
  - cbn [mapM]. rewrite scenario_feature_regulome. reflexivity.
  - apply scenario_run_second.
  - apply scenario_rank_mappings_differ.
Qed.
